(** * tmdb3.locales: registries of languages and countries, locales and
      the process-wide current locale.

    A shallow embedding of [tmdb3/locales.py].  Python objects live in a
    heap and are referred to by their address (what [id()] returns);
    class-level dictionaries ([_stored]), the class attribute
    [fallthrough] and the module global [syslocale] are fields of the
    program state.  Every function of the module is a computation in a
    state-and-exception monad, written in the order the source is. *)

From Stdlib Require Import ZArith String Ascii List Bool Lia DecimalString.
From Stdlib.Strings Require Byte.
From stdpp Require Import base option list gmap strings.

Local Open Scope string_scope.
Local Open Scope Z_scope.

(** ** Python values and exceptions *)

(** Object identity: the address of an object in the heap. *)
Abbreviation addr := nat.

(** The values the module handles.  Text ([str]) is a sequence of code
    points below 256 (one [ascii] each), which covers the ISO codes and
    the names of the seed data; [bytes] are octets. *)
Inductive value : Type :=
| VNone
| VBool (b : bool)
| VInt (z : Z)
| VStr (s : string)
| VBytes (b : list Byte.byte)
| VRef (a : addr).

(** Exception classes.  [SystemError] is what the model answers on a
    reference to an object that was never allocated; [OtherError] stands
    for any class unrelated to the named ones. *)
Inductive exn : Type :=
| AttributeError
| KeyError
| TypeError
| IndexError
| RecursionError
| SystemError
| LookupError
| UnicodeEncodeError
| UnicodeDecodeError
| NotImplementedError (msg : string)
| TMDBLocaleError (msg : string)
| OtherError (cls : string).

Inductive res (A : Type) : Type :=
| Ok (a : A)
| Raise (e : exn).
Arguments Ok {A} a.
Arguments Raise {A} e.

#[global] Instance byte_eq_dec : EqDecision Byte.byte := Byte.byte_eq_dec.

#[global] Instance value_eq_dec : EqDecision value.
Proof. solve_decision. Defined.

#[global] Instance exn_eq_dec : EqDecision exn.
Proof. solve_decision. Defined.

Definition is_None (v : value) : bool :=
  match v with VNone => true | _ => false end.

(** ** Text primitives of the interpreter *)

Module Text.

Definition code (c : ascii) : N := N_of_ascii c.

Definition in_range (lo hi : N) (c : ascii) : bool :=
  ((lo <=? code c) && (code c <=? hi))%N.

Definition shift_up (c : ascii) : ascii := ascii_of_N (code c + 32).
Definition shift_down (c : ascii) : ascii := ascii_of_N (code c - 32).

(** [str.lower] on one code point below 256: A-Z and the capital
    letters U+00C0-U+00DE (all but the multiplication sign U+00D7) move
    32 places up; everything else has no lower-case form. *)
Definition lower_char (c : ascii) : ascii :=
  if in_range 65 90 c then shift_up c
  else if in_range 192 222 c && negb (code c =? 215)%N then shift_up c
  else c.

Fixpoint lower (s : string) : string :=
  match s with
  | EmptyString => EmptyString
  | String c s' => String (lower_char c) (lower s')
  end.

(** [str.upper] on one code point below 256.  The capital of U+00DF is
    the two letters SS; the capitals of U+00B5 and U+00FF lie above
    U+00FF, outside the text of this model, hence [None]. *)
Definition upper_char (c : ascii) : option string :=
  if in_range 97 122 c then Some (String (shift_down c) EmptyString)
  else if (code c =? 223)%N then Some "SS"
  else if (code c =? 181)%N || (code c =? 255)%N then None
  else if in_range 224 254 c && negb (code c =? 247)%N
       then Some (String (shift_down c) EmptyString)
  else Some (String c EmptyString).

Fixpoint upper (s : string) : option string :=
  match s with
  | EmptyString => Some EmptyString
  | String c s' =>
      match upper_char c, upper s' with
      | Some u, Some us => Some (u +:+ us)
      | _, _ => None
      end
  end.

Definition is_ascii_char (c : ascii) : bool := (code c <? 128)%N.

Fixpoint is_ascii (s : string) : bool :=
  match s with
  | EmptyString => true
  | String c s' => is_ascii_char c && is_ascii s'
  end.

(** ['_' in s] *)
Fixpoint contains (c : ascii) (s : string) : bool :=
  match s with
  | EmptyString => false
  | String d s' => if Ascii.eqb c d then true else contains c s'
  end.

(** [s.split(sep)] for a one-character separator: the pieces between
    the occurrences of [sep], one more than there are occurrences. *)
Fixpoint split (sep : ascii) (s : string) : list string :=
  match s with
  | EmptyString => [EmptyString]
  | String c s' =>
      if Ascii.eqb c sep then EmptyString :: split sep s'
      else match split sep s' with
           | p :: ps => String c p :: ps
           | [] => [String c EmptyString]
           end
  end.

(** [str(z)] for an integer. *)
Definition of_Z (z : Z) : string := NilZero.string_of_int (Z.to_int z).

Definition backslash : ascii := ascii_of_N 92.
Definition dquote : ascii := ascii_of_N 34.
Definition squote : ascii := ascii_of_N 39.
Definition escape (c : ascii) : string := String backslash (String c EmptyString).

Definition hex_digit (n : N) : ascii :=
  if (n <? 10)%N then ascii_of_N (48 + n) else ascii_of_N (87 + n).

(** One octet of [repr(bytes)] with [quote] as the delimiter. *)
Definition repr_byte (quote : ascii) (b : Byte.byte) : string :=
  let c := ascii_of_byte b in
  let n := code c in
  if Ascii.eqb c quote || (n =? 92)%N then escape c
  else if (n =? 9)%N then escape "t"
  else if (n =? 10)%N then escape "n"
  else if (n =? 13)%N then escape "r"
  else if (n <? 32)%N || (127 <=? n)%N
       then String backslash (String "x" (String (hex_digit (n / 16))
              (String (hex_digit (n mod 16)) EmptyString)))
  else String c EmptyString.

Definition has_byte (c : ascii) (bs : list Byte.byte) : bool :=
  existsb (fun b => Ascii.eqb (ascii_of_byte b) c) bs.

(** [repr(bs)], which is also [str(bs)]: a single quote delimits unless
    the octets hold a single quote and no double quote. *)
Definition repr_bytes (bs : list Byte.byte) : string :=
  let quote : ascii :=
    if has_byte squote bs && negb (has_byte dquote bs) then dquote else squote in
  String "b" (String quote
    (fold_right (fun b acc => repr_byte quote b +:+ acc)
                (String quote EmptyString) bs)).

(** [bytes.lower]: A-Z only. *)
Definition lower_byte (b : Byte.byte) : Byte.byte :=
  let c := ascii_of_byte b in
  if in_range 65 90 c then byte_of_ascii (shift_up c) else b.

End Text.

(** ** Objects, classes and the program state *)

(** The classes that have instances.  [LocaleBase], their common base,
    is never instantiated by the module. *)
Inductive class : Type := Language | Country | Locale.

#[global] Instance class_eq_dec : EqDecision class.
Proof. solve_decision. Defined.

(** [cls.__name__] *)
Definition class_name (c : class) : string :=
  match c with
  | Language => "Language"
  | Country => "Country"
  | Locale => "Locale"
  end.

Fixpoint strip_underscores (s : string) : string :=
  match s with
  | String "_" s' => strip_underscores s'
  | _ => s
  end.

Definition starts_dunder (s : string) : bool := String.prefix "__" s.

Definition ends_dunder (s : string) : bool :=
  let n := String.length s in
  String.eqb (String.substring (n - 2) 2 s) "__".

(** Private name mangling, done by the compiler on every identifier
    [__name] (not ending in two underscores) that occurs in the body of
    class [cls], the entries of [__slots__] included; a class whose name
    is made of underscores only mangles nothing.  String literals are
    not identifiers and stay as they are. *)
Definition mangle (cls name : string) : string :=
  if starts_dunder name && negb (ends_dunder name)
     && negb (String.eqb (strip_underscores cls) "")
  then "_" +:+ strip_underscores cls +:+ name
  else name.

(** [__slots__] of each class, as stored in the class after mangling. *)
Definition LocaleBase_slots : list string := [mangle "LocaleBase" "__immutable"].

Definition own_slots (c : class) : list string :=
  match c with
  | Language => ["ISO639_1"; "ISO639_2"; "ISO639_2B"; "englishname"; "nativename"]
  | Country => ["alpha2"; "name"]
  | Locale => ["language"; "country"; "encoding"]
  end.

(** Every slot of an instance: those of its class and of [LocaleBase].
    No class in the chain has a [__dict__]. *)
Definition slots_of (c : class) : list string := own_slots c ++ LocaleBase_slots.

Definition is_slot (c : class) (name : string) : bool :=
  bool_decide (name ∈ slots_of c).

Record pyobj : Type := mk_obj {
  ob_class : class;
  ob_slots : gmap string value
}.

Record state : Type := mk_state {
  heap : list pyobj;                     (* the object at address [a] is [heap !! a] *)
  Language_stored : gmap string addr;    (* Language._stored *)
  Country_stored : gmap string addr;     (* Country._stored *)
  LocaleBase_stored : gmap string addr;  (* LocaleBase._stored, which Locale inherits *)
  fallthrough : value;                   (* LocaleBase.fallthrough *)
  syslocale : value                      (* the module global *)
}.

(** What the host answers: [locale.getdefaultlocale()] and the codecs
    behind [str.encode] and [bytes.decode]. *)
Record host : Type := mk_host {
  getdefaultlocale : option string * option string;
  codec_encode : string -> string -> res (list Byte.byte);
  codec_decode : list Byte.byte -> string -> res string
}.

(** State of the module before its body runs. *)
Definition empty_state : state :=
  {| heap := [];
     Language_stored := ∅;
     Country_stored := ∅;
     LocaleBase_stored := ∅;
     fallthrough := VBool false;
     syslocale := VNone |}.

(** [type(self)._stored], resolved along the class hierarchy. *)
Definition stored_of (c : class) (s : state) : gmap string addr :=
  match c with
  | Language => Language_stored s
  | Country => Country_stored s
  | Locale => LocaleBase_stored s
  end.

Definition set_stored (c : class) (d : gmap string addr) (s : state) : state :=
  match c with
  | Language =>
      mk_state (heap s) d (Country_stored s) (LocaleBase_stored s) (fallthrough s) (syslocale s)
  | Country =>
      mk_state (heap s) (Language_stored s) d (LocaleBase_stored s) (fallthrough s) (syslocale s)
  | Locale =>
      mk_state (heap s) (Language_stored s) (Country_stored s) d (fallthrough s) (syslocale s)
  end.

Definition set_heap (h : list pyobj) (s : state) : state :=
  mk_state h (Language_stored s) (Country_stored s) (LocaleBase_stored s)
           (fallthrough s) (syslocale s).

Definition set_fallthrough (v : value) (s : state) : state :=
  mk_state (heap s) (Language_stored s) (Country_stored s) (LocaleBase_stored s)
           v (syslocale s).

Definition set_syslocale (v : value) (s : state) : state :=
  mk_state (heap s) (Language_stored s) (Country_stored s) (LocaleBase_stored s)
           (fallthrough s) v.

(** ** The monad of statements: state and exceptions *)

Definition M (A : Type) : Type := state -> res A * state.

Definition ret {A} (a : A) : M A := fun s => (Ok a, s).

Definition raise {A} (e : exn) : M A := fun s => (Raise e, s).

Definition bind {A B} (m : M A) (k : A -> M B) : M B :=
  fun s => match m s with
           | (Ok a, s') => k a s'
           | (Raise e, s') => (Raise e, s')
           end.

(** [try: m  except ...: handler]; the handler sees the exception and
    the state the body left. *)
Definition try_except {A} (m : M A) (handler : exn -> M A) : M A :=
  fun s => match m s with
           | (Ok a, s') => (Ok a, s')
           | (Raise e, s') => handler e s'
           end.

(** A computation that only reads the state. *)
Definition reading {A} (f : state -> res A) : M A := fun s => (f s, s).

Definition modify (f : state -> state) : M unit := fun s => (Ok tt, f s).

Declare Scope py_scope.
Delimit Scope py_scope with py.
Notation "x <- m ;; k" := (bind m (fun x => k))
  (at level 100, m at next level, right associativity) : py_scope.
Notation "m ;;; k" := (bind m (fun _ => k))
  (at level 100, right associativity) : py_scope.
Local Open Scope py_scope.

Fixpoint for_each {A} (l : list A) (body : A -> M unit) : M unit :=
  match l with
  | [] => ret tt
  | x :: l' => body x ;;; for_each l' body
  end.

Definition rbind {A B} (r : res A) (k : A -> res B) : res B :=
  match r with
  | Ok a => k a
  | Raise e => Raise e
  end.

(** ** Attribute access on instances *)

(** Truth value of a value, as [if v], [not v] and [v if v else w] test
    it.  The classes define neither [__bool__] nor [__len__], so every
    instance is true. *)
Definition truthy (v : value) : bool :=
  match v with
  | VNone => false
  | VBool b => b
  | VInt z => negb (z =? 0)
  | VStr s => negb (String.eqb s "")
  | VBytes b => match b with [] => false | _ => true end
  | VRef _ => true
  end.

Definition class_of (a : addr) (s : state) : res class :=
  match heap s !! a with
  | Some o => Ok (ob_class o)
  | None => Raise SystemError
  end.

(** Reading [self.name] where [name] is not an attribute that the
    class itself carries (a method, [_stored], [fallthrough], the
    attributes of [object]).  A slot answers its value, or
    [AttributeError] while it is unset; any other such name is not an
    attribute of the instance, which has no [__dict__]. *)
Definition getattr (a : addr) (name : string) (s : state) : res value :=
  match heap s !! a with
  | None => Raise SystemError
  | Some o =>
      if is_slot (ob_class o) name then
        match ob_slots o !! name with
        | Some v => Ok v
        | None => Raise AttributeError
        end
      else Raise AttributeError
  end.

(** [getattr(self, name, default)] *)
Definition getattr_default (a : addr) (name : string) (default : value)
    (s : state) : res value :=
  match getattr a name s with
  | Raise AttributeError => Ok default
  | r => r
  end.

(** The heap after the slots of the object [o] at [a] became [slots]. *)
Definition write_slots (a : addr) (o : pyobj) (slots : gmap string value) : M unit :=
  modify (fun s => set_heap (<[a := mk_obj (ob_class o) slots]> (heap s)) s).

(** [object.__setattr__(self, key, value)].  A slot takes the value.
    [__class__] only takes a class, which no value of the model is.
    Every other name is refused: an attribute of the class is read-only
    through the instance, and there is no [__dict__] for a new one. *)
Definition object_setattr (a : addr) (key : string) (v : value) : M unit :=
  fun s =>
    match heap s !! a with
    | None => (Raise SystemError, s)
    | Some o =>
        if is_slot (ob_class o) key then write_slots a o (<[key := v]> (ob_slots o)) s
        else if String.eqb key "__class__" then (Raise TypeError, s)
        else (Raise AttributeError, s)
    end.

(** [object.__delattr__(self, key)] *)
Definition object_delattr (a : addr) (key : string) : M unit :=
  fun s =>
    match heap s !! a with
    | None => (Raise SystemError, s)
    | Some o =>
        if is_slot (ob_class o) key then
          match ob_slots o !! key with
          | Some _ => write_slots a o (delete key (ob_slots o)) s
          | None => (Raise AttributeError, s)
          end
        else if String.eqb key "__class__" then (Raise TypeError, s)
        else (Raise AttributeError, s)
    end.

(** [LocaleBase.__setattr__]; the name given to [getattr] is a string
    literal. *)
Definition LocaleBase_setattr (self : addr) (key : string) (v : value) : M unit :=
  imm <- reading (getattr_default self "__immutable" (VBool false)) ;;
  if truthy imm then
    c <- reading (class_of self) ;;
    raise (NotImplementedError (class_name c +:+ " does not support modification."))
  else object_setattr self key v.

(** [LocaleBase.__delattr__] *)
Definition LocaleBase_delattr (self : addr) (key : string) : M unit :=
  imm <- reading (getattr_default self "__immutable" (VBool false)) ;;
  if truthy imm then
    c <- reading (class_of self) ;;
    raise (NotImplementedError (class_name c +:+ " does not support modification."))
  else object_delattr self key.

(** Allocation of an instance with every slot unset; its address is
    fresh. *)
Definition new_object (c : class) : M addr :=
  fun s => (Ok (length (heap s)), set_heap (heap s ++ [mk_obj c ∅]) s).

(** ** String forms *)

(** Depth allowed to nested [__str__] calls, after which the interpreter
    raises [RecursionError]. *)
Definition recursion_limit : nat := 1000.

(** [str(v)], which is also what an f-string puts for [{v}]:
    [Language.__str__] returns [self.ISO639_1], [Country.__str__]
    returns [self.alpha2] (a [__str__] that returns something else than
    text is a [TypeError]) and [Locale.__str__] is
    [f"{self.language}_{self.country}"]. *)
Fixpoint str_at (depth : nat) (s : state) (v : value) : res string :=
  match v with
  | VNone => Ok "None"
  | VBool true => Ok "True"
  | VBool false => Ok "False"
  | VInt z => Ok (Text.of_Z z)
  | VStr t => Ok t
  | VBytes b => Ok (Text.repr_bytes b)
  | VRef a =>
      match depth with
      | O => Raise RecursionError
      | S depth' =>
          rbind (class_of a s) (fun c =>
          match c with
          | Language =>
              rbind (getattr a "ISO639_1" s) (fun r =>
              match r with VStr t => Ok t | _ => Raise TypeError end)
          | Country =>
              rbind (getattr a "alpha2" s) (fun r =>
              match r with VStr t => Ok t | _ => Raise TypeError end)
          | Locale =>
              rbind (getattr a "language" s) (fun l =>
              rbind (str_at depth' s l) (fun ls =>
              rbind (getattr a "country" s) (fun c =>
              rbind (str_at depth' s c) (fun cs =>
              Ok (ls +:+ "_" +:+ cs)))))
          end)
      end
  end.

Definition py_str (v : value) : M string := reading (fun s => str_at recursion_limit s v).

(** ** Comparisons *)

(** [LocaleBase.__lt__]: [(id(self) != id(other)) and (str(self) > str(other))] *)
Definition LocaleBase_lt (self : addr) (other : value) : M bool :=
  if negb (bool_decide (VRef self = other)) then
    a <- py_str (VRef self) ;;
    b <- py_str other ;;
    ret (String.ltb b a)
  else ret false.

(** [LocaleBase.__gt__]: [(id(self) != id(other)) and (str(self) < str(other))] *)
Definition LocaleBase_gt (self : addr) (other : value) : M bool :=
  if negb (bool_decide (VRef self = other)) then
    a <- py_str (VRef self) ;;
    b <- py_str other ;;
    ret (String.ltb a b)
  else ret false.

(** [LocaleBase.__eq__]: [(id(self) == id(other)) or (str(self) == str(other))] *)
Definition LocaleBase_eq (self : addr) (other : value) : M bool :=
  if bool_decide (VRef self = other) then ret true
  else
    a <- py_str (VRef self) ;;
    b <- py_str other ;;
    ret (String.eqb a b).

Definition as_number (v : value) : option Z :=
  match v with
  | VBool b => Some (if b then 1 else 0)
  | VInt z => Some z
  | _ => None
  end.

(** [==] between two values that are not instances. *)
Definition builtin_eq (v w : value) : bool :=
  match v, w with
  | VNone, VNone => true
  | VStr a, VStr b => String.eqb a b
  | VBytes a, VBytes b => bool_decide (a = b)
  | _, _ =>
      match as_number v, as_number w with
      | Some a, Some b => a =? b
      | _, _ => false
      end
  end.

(** [v == w]: the [__eq__] of the left operand when it is an instance,
    else the one of the right operand (the built-in types answer
    [NotImplemented] to an instance), else the built-in equality. *)
Definition py_eq (v w : value) : M bool :=
  match v, w with
  | VRef a, _ => LocaleBase_eq a w
  | _, VRef b => LocaleBase_eq b v
  | _, _ => ret (builtin_eq v w)
  end.

(** ** The registries *)

(** [key.lower()]: text and bytes have the method, nothing else has. *)
Definition py_lower (key : value) : M value :=
  match key with
  | VStr t => ret (VStr (Text.lower t))
  | VBytes b => ret (VBytes (map Text.lower_byte b))
  | _ => raise AttributeError
  end.

(** [cls._stored[k]].  The keys of the dictionary are text; a hashable
    value of another type equals none of them, and an instance is not
    hashable (its class defines [__eq__] and no [__hash__]). *)
Definition stored_getitem (cls : class) (k : value) : M value :=
  fun s =>
    match k with
    | VStr t =>
        match stored_of cls s !! t with
        | Some a => (Ok (VRef a), s)
        | None => (Raise KeyError, s)
        end
    | VRef _ => (Raise TypeError, s)
    | _ => (Raise KeyError, s)
    end.

(** [LocaleBase.getstored], a class method: [cls] is the class it is
    called on. *)
Definition getstored (cls : class) (key : value) : M value :=
  if is_None key then ret VNone
  else
    try_except
      (k <- py_lower key ;; stored_getitem cls k)
      (fun _ =>
         shown <- py_str key ;;
         raise (TMDBLocaleError
                  ("'" +:+ shown +:+ "' is not a known valid "
                       +:+ class_name cls +:+ " code."))).

(** [LocaleBase.__init__(self, *keys)] *)
Definition LocaleBase_init (self : addr) (keys : list string) : M unit :=
  for_each keys (fun key =>
    c <- reading (class_of self) ;;
    modify (fun s => set_stored c (<[Text.lower key := self]> (stored_of c s)) s)) ;;;
  LocaleBase_setattr self (mangle "LocaleBase" "__immutable") (VBool true).

(** [Language.__init__(self, iso1, iso2, ename)] *)
Definition Language_init (self : addr) (iso1 iso2 ename : string) : M unit :=
  LocaleBase_setattr self "ISO639_1" (VStr iso1) ;;;
  LocaleBase_setattr self "ISO639_2" (VStr iso2) ;;;
  LocaleBase_setattr self "englishname" (VStr ename) ;;;
  LocaleBase_init self [iso1; iso2].

(** [Language(iso1, iso2, ename)] *)
Definition new_Language (iso1 iso2 ename : string) : M addr :=
  self <- new_object Language ;;
  Language_init self iso1 iso2 ename ;;;
  ret self.

(** [Country.__init__(self, alpha2, name)] *)
Definition Country_init (self : addr) (alpha2 name : string) : M unit :=
  LocaleBase_setattr self "alpha2" (VStr alpha2) ;;;
  LocaleBase_setattr self "name" (VStr name) ;;;
  LocaleBase_init self [alpha2].

(** [Country(alpha2, name)] *)
Definition new_Country (alpha2 name : string) : M addr :=
  self <- new_object Country ;;
  Country_init self alpha2 name ;;;
  ret self.

(** ** Locale *)

(** [Locale.__init__(self, language, country, encoding, *keys)] *)
Definition Locale_init (self : addr) (language country encoding : value)
    (keys : list string) : M unit :=
  l <- getstored Language language ;;
  LocaleBase_setattr self "language" l ;;;
  c <- getstored Country country ;;
  LocaleBase_setattr self "country" c ;;;
  LocaleBase_setattr self "encoding"
    (if truthy encoding then encoding else VStr "latin-1") ;;;
  LocaleBase_init self keys.

(** [Locale(language, country, encoding, *keys)] *)
Definition new_Locale (language country encoding : value) (keys : list string) : M addr :=
  self <- new_object Locale ;;
  Locale_init self language country encoding keys ;;;
  ret self.

(** [v.name] for a value that may or may not be an instance. *)
Definition attr (v : value) (name : string) : M value :=
  match v with
  | VRef a => reading (getattr a name)
  | _ => raise AttributeError
  end.

Definition of_option (o : option string) : value :=
  match o with
  | Some t => VStr t
  | None => VNone
  end.

(** [dat[i]] *)
Definition index (dat : list string) (i : nat) : M value :=
  match dat !! i with
  | Some t => ret (VStr t)
  | None => raise IndexError
  end.

Section Host.

Variable h : host.

(** [text.encode(encoding)] *)
Definition str_encode (text : string) (encoding : value) : M value :=
  match encoding with
  | VStr name =>
      match codec_encode h text name with
      | Ok b => ret (VBytes b)
      | Raise e => raise e
      end
  | _ => raise TypeError
  end.

(** [octets.decode(encoding)] *)
Definition bytes_decode (octets : list Byte.byte) (encoding : value) : M value :=
  match encoding with
  | VStr name =>
      match codec_decode h octets name with
      | Ok t => ret (VStr t)
      | Raise e => raise e
      end
  | _ => raise TypeError
  end.

(** [Locale.encode(self, dat)].  What [dat.encode] is depends on [dat]:
    text has the method of [str]; an instance of [Locale] has
    [Locale.encode] itself, which is then called with [self.encoding]
    as its data; an instance of another class, bytes, a number and
    [None] have none, which is an [AttributeError].  [depth] is the
    depth left to nested calls. *)
Fixpoint Locale_encode_at (depth : nat) (self : addr) (dat : value) : M value :=
  match depth with
  | O => raise RecursionError
  | S depth' =>
      try_except
        (match dat with
         | VStr text =>
             encoding <- reading (getattr self "encoding") ;;
             str_encode text encoding
         | VRef other =>
             cls <- reading (class_of other) ;;
             match cls with
             | Locale =>
                 encoding <- reading (getattr self "encoding") ;;
                 Locale_encode_at depth' other encoding
             | Language | Country => raise AttributeError
             end
         | _ => raise AttributeError
         end)
        (fun e =>
           match e with
           | AttributeError => ret dat
           | UnicodeDecodeError => ret dat
           | _ => raise e
           end)
  end.

Definition Locale_encode (self : addr) (dat : value) : M value :=
  Locale_encode_at recursion_limit self dat.

(** [Locale.decode(self, dat)].  Bytes have the [decode] method of
    [bytes], an instance of [Locale] has [Locale.decode] itself, and no
    other value has one. *)
Fixpoint Locale_decode_at (depth : nat) (self : addr) (dat : value) : M value :=
  match depth with
  | O => raise RecursionError
  | S depth' =>
      try_except
        (match dat with
         | VBytes octets =>
             encoding <- reading (getattr self "encoding") ;;
             bytes_decode octets encoding
         | VRef other =>
             cls <- reading (class_of other) ;;
             match cls with
             | Locale =>
                 encoding <- reading (getattr self "encoding") ;;
                 Locale_decode_at depth' other encoding
             | Language | Country => raise AttributeError
             end
         | _ => raise AttributeError
         end)
        (fun e =>
           match e with
           | AttributeError => ret dat
           | UnicodeEncodeError => ret dat
           | _ => raise e
           end)
  end.

Definition Locale_decode (self : addr) (dat : value) : M value :=
  Locale_decode_at recursion_limit self dat.

(** ** The current locale *)

(** The pair [dat] that [set_locale] falls back on. *)
Definition fallback_pair (sysloc : option string) : M (list string) :=
  cur <- reading (fun s => Ok (syslocale s)) ;;
  if negb (is_None cur) then
    l <- attr cur "language" ;;
    ls <- py_str l ;;
    c <- attr cur "country" ;;
    cs <- py_str c ;;
    ret [ls; cs]
  else
    match sysloc with
    | None => ret ["en"; "US"]
    | Some t =>
        if negb (Text.contains "_" t) then ret ["en"; "US"]
        else ret (Text.split "_" t)
    end.

(** [set_locale(language, country, fallthrough)]; an argument left out
    is [None], respectively [False]. *)
Definition set_locale (language country fallthrough : value) : M unit :=
  modify (set_fallthrough fallthrough) ;;;
  let '(sysloc, sysenc) := getdefaultlocale h in
  lc <- (if negb (truthy language) || negb (truthy country) then
           dat <- fallback_pair sysloc ;;
           language' <- (if is_None language then index dat 0 else ret language) ;;
           country' <- (if is_None country then index dat 1 else ret country) ;;
           ret (language', country')
         else ret (language, country)) ;;
  loc <- new_Locale (fst lc) (snd lc) (of_option sysenc) [] ;;
  modify (set_syslocale (VRef loc)).

(** The default of both arguments of [get_locale]. *)
Definition unset : value := VInt (-1).

(** [get_locale(language, country)]; an argument left out is [-1]. *)
Definition get_locale (language country : value) : M value :=
  cur <- reading (fun s => Ok (syslocale s)) ;;
  loc <- (if is_None cur then
            a <- new_Locale VNone VNone (of_option (snd (getdefaultlocale h))) [] ;;
            ret (VRef a)
          else ret cur) ;;
  both <- (e <- py_eq language country ;;
           if e then py_eq country unset else ret false) ;;
  if both then ret loc
  else
    lc <- (e <- py_eq language unset ;;
           if e then l <- attr loc "language" ;; ret (l, country)
           else
             e' <- py_eq country unset ;;
             if e' then c <- attr loc "country" ;; ret (language, c)
             else ret (language, country)) ;;
    encoding <- attr loc "encoding" ;;
    a <- new_Locale (fst lc) (snd lc) encoding [] ;;
    ret (VRef a).

End Host.

(** ** The seed data

    The body of the module, below the definitions, is a sequence of
    constructor calls, one per line of the source and in its order. *)

Inductive seed_call : Type :=
| SLanguage (iso1 iso2 ename : string)
| SCountry (alpha2 name : string).

(** The one-character text of code point [n]. *)
Definition chr (n : N) : string := String (ascii_of_N n) EmptyString.

Module Seed.
Abbreviation Language := SLanguage (only parsing).
Abbreviation Country := SCountry (only parsing).

Definition calls : list seed_call := [
  Language "ab" "abk" "Abkhazian";
  Language "aa" "aar" "Afar";
  Language "af" "afr" "Afrikaans";
  Language "ak" "aka" "Akan";
  Language "sq" "alb/sqi" "Albanian";
  Language "am" "amh" "Amharic";
  Language "ar" "ara" "Arabic";
  Language "an" "arg" "Aragonese";
  Language "hy" "arm/hye" "Armenian";
  Language "as" "asm" "Assamese";
  Language "av" "ava" "Avaric";
  Language "ae" "ave" "Avestan";
  Language "ay" "aym" "Aymara";
  Language "az" "aze" "Azerbaijani";
  Language "bm" "bam" "Bambara";
  Language "ba" "bak" "Bashkir";
  Language "eu" "baq/eus" "Basque";
  Language "be" "bel" "Belarusian";
  Language "bn" "ben" "Bengali";
  Language "bh" "bih" "Bihari languages";
  Language "bi" "bis" "Bislama";
  Language "nb" "nob" ("Bokm" +:+ chr 229 +:+ "l, Norwegian");
  Language "bs" "bos" "Bosnian";
  Language "br" "bre" "Breton";
  Language "bg" "bul" "Bulgarian";
  Language "my" "bur/mya" "Burmese";
  Language "es" "spa" "Castilian";
  Language "ca" "cat" "Catalan";
  Language "km" "khm" "Central Khmer";
  Language "ch" "cha" "Chamorro";
  Language "ce" "che" "Chechen";
  Language "ny" "nya" "Chewa";
  Language "ny" "nya" "Chichewa";
  Language "zh" "chi/zho" "Chinese";
  Language "za" "zha" "Chuang";
  Language "cu" "chu" "Church Slavic";
  Language "cu" "chu" "Church Slavonic";
  Language "cv" "chv" "Chuvash";
  Language "kw" "cor" "Cornish";
  Language "co" "cos" "Corsican";
  Language "cr" "cre" "Cree";
  Language "hr" "hrv" "Croatian";
  Language "cs" "cze/ces" "Czech";
  Language "da" "dan" "Danish";
  Language "dv" "div" "Dhivehi";
  Language "dv" "div" "Divehi";
  Language "nl" "dut/nld" "Dutch";
  Language "dz" "dzo" "Dzongkha";
  Language "en" "eng" "English";
  Language "eo" "epo" "Esperanto";
  Language "et" "est" "Estonian";
  Language "ee" "ewe" "Ewe";
  Language "fo" "fao" "Faroese";
  Language "fj" "fij" "Fijian";
  Language "fi" "fin" "Finnish";
  Language "nl" "dut/nld" "Flemish";
  Language "fr" "fre/fra" "French";
  Language "ff" "ful" "Fulah";
  Language "gd" "gla" "Gaelic";
  Language "gl" "glg" "Galician";
  Language "lg" "lug" "Ganda";
  Language "ka" "geo/kat" "Georgian";
  Language "de" "ger/deu" "German";
  Language "ki" "kik" "Gikuyu";
  Language "el" "gre/ell" "Greek, Modern (1453-)";
  Language "kl" "kal" "Greenlandic";
  Language "gn" "grn" "Guarani";
  Language "gu" "guj" "Gujarati";
  Language "ht" "hat" "Haitian";
  Language "ht" "hat" "Haitian Creole";
  Language "ha" "hau" "Hausa";
  Language "he" "heb" "Hebrew";
  Language "hz" "her" "Herero";
  Language "hi" "hin" "Hindi";
  Language "ho" "hmo" "Hiri Motu";
  Language "hu" "hun" "Hungarian";
  Language "is" "ice/isl" "Icelandic";
  Language "io" "ido" "Ido";
  Language "ig" "ibo" "Igbo";
  Language "id" "ind" "Indonesian";
  Language "ia" "ina" "Interlingua (International Auxiliary Language Association)";
  Language "ie" "ile" "Interlingue";
  Language "iu" "iku" "Inuktitut";
  Language "ik" "ipk" "Inupiaq";
  Language "ga" "gle" "Irish";
  Language "it" "ita" "Italian";
  Language "ja" "jpn" "Japanese";
  Language "jv" "jav" "Javanese";
  Language "kl" "kal" "Kalaallisut";
  Language "kn" "kan" "Kannada";
  Language "kr" "kau" "Kanuri";
  Language "ks" "kas" "Kashmiri";
  Language "kk" "kaz" "Kazakh";
  Language "ki" "kik" "Kikuyu";
  Language "rw" "kin" "Kinyarwanda";
  Language "ky" "kir" "Kirghiz";
  Language "kv" "kom" "Komi";
  Language "kg" "kon" "Kongo";
  Language "ko" "kor" "Korean";
  Language "kj" "kua" "Kuanyama";
  Language "ku" "kur" "Kurdish";
  Language "kj" "kua" "Kwanyama";
  Language "ky" "kir" "Kyrgyz";
  Language "lo" "lao" "Lao";
  Language "la" "lat" "Latin";
  Language "lv" "lav" "Latvian";
  Language "lb" "ltz" "Letzeburgesch";
  Language "li" "lim" "Limburgan";
  Language "li" "lim" "Limburger";
  Language "li" "lim" "Limburgish";
  Language "ln" "lin" "Lingala";
  Language "lt" "lit" "Lithuanian";
  Language "lu" "lub" "Luba-Katanga";
  Language "lb" "ltz" "Luxembourgish";
  Language "mk" "mac/mkd" "Macedonian";
  Language "mg" "mlg" "Malagasy";
  Language "ms" "may/msa" "Malay";
  Language "ml" "mal" "Malayalam";
  Language "dv" "div" "Maldivian";
  Language "mt" "mlt" "Maltese";
  Language "gv" "glv" "Manx";
  Language "mi" "mao/mri" "Maori";
  Language "mr" "mar" "Marathi";
  Language "mh" "mah" "Marshallese";
  Language "ro" "rum/ron" "Moldavian";
  Language "ro" "rum/ron" "Moldovan";
  Language "mn" "mon" "Mongolian";
  Language "na" "nau" "Nauru";
  Language "nv" "nav" "Navaho";
  Language "nv" "nav" "Navajo";
  Language "nd" "nde" "Ndebele, North";
  Language "nr" "nbl" "Ndebele, South";
  Language "ng" "ndo" "Ndonga";
  Language "ne" "nep" "Nepali";
  Language "nd" "nde" "North Ndebele";
  Language "se" "sme" "Northern Sami";
  Language "no" "nor" "Norwegian";
  Language "nb" "nob" ("Norwegian Bokm" +:+ chr 229 +:+ "l");
  Language "nn" "nno" "Norwegian Nynorsk";
  Language "ii" "iii" "Nuosu";
  Language "ny" "nya" "Nyanja";
  Language "nn" "nno" "Nynorsk, Norwegian";
  Language "ie" "ile" "Occidental";
  Language "oc" "oci" "Occitan (post 1500)";
  Language "oj" "oji" "Ojibwa";
  Language "cu" "chu" "Old Bulgarian";
  Language "cu" "chu" "Old Church Slavonic";
  Language "cu" "chu" "Old Slavonic";
  Language "or" "ori" "Oriya";
  Language "om" "orm" "Oromo";
  Language "os" "oss" "Ossetian";
  Language "os" "oss" "Ossetic";
  Language "pi" "pli" "Pali";
  Language "pa" "pan" "Panjabi";
  Language "ps" "pus" "Pashto";
  Language "fa" "per/fas" "Persian";
  Language "pl" "pol" "Polish";
  Language "pt" "por" "Portuguese";
  Language "pa" "pan" "Punjabi";
  Language "ps" "pus" "Pushto";
  Language "qu" "que" "Quechua";
  Language "ro" "rum/ron" "Romanian";
  Language "rm" "roh" "Romansh";
  Language "rn" "run" "Rundi";
  Language "ru" "rus" "Russian";
  Language "sm" "smo" "Samoan";
  Language "sg" "sag" "Sango";
  Language "sa" "san" "Sanskrit";
  Language "sc" "srd" "Sardinian";
  Language "gd" "gla" "Scottish Gaelic";
  Language "sr" "srp" "Serbian";
  Language "sn" "sna" "Shona";
  Language "ii" "iii" "Sichuan Yi";
  Language "sd" "snd" "Sindhi";
  Language "si" "sin" "Sinhala";
  Language "si" "sin" "Sinhalese";
  Language "sk" "slo/slk" "Slovak";
  Language "sl" "slv" "Slovenian";
  Language "so" "som" "Somali";
  Language "st" "sot" "Sotho, Southern";
  Language "nr" "nbl" "South Ndebele";
  Language "es" "spa" "Spanish";
  Language "su" "sun" "Sundanese";
  Language "sw" "swa" "Swahili";
  Language "ss" "ssw" "Swati";
  Language "sv" "swe" "Swedish";
  Language "tl" "tgl" "Tagalog";
  Language "ty" "tah" "Tahitian";
  Language "tg" "tgk" "Tajik";
  Language "ta" "tam" "Tamil";
  Language "tt" "tat" "Tatar";
  Language "te" "tel" "Telugu";
  Language "th" "tha" "Thai";
  Language "bo" "tib/bod" "Tibetan";
  Language "ti" "tir" "Tigrinya";
  Language "to" "ton" "Tonga (Tonga Islands)";
  Language "ts" "tso" "Tsonga";
  Language "tn" "tsn" "Tswana";
  Language "tr" "tur" "Turkish";
  Language "tk" "tuk" "Turkmen";
  Language "tw" "twi" "Twi";
  Language "ug" "uig" "Uighur";
  Language "uk" "ukr" "Ukrainian";
  Language "ur" "urd" "Urdu";
  Language "ug" "uig" "Uyghur";
  Language "uz" "uzb" "Uzbek";
  Language "ca" "cat" "Valencian";
  Language "ve" "ven" "Venda";
  Language "vi" "vie" "Vietnamese";
  Language "vo" "vol" ("Volap" +:+ chr 252 +:+ "k");
  Language "wa" "wln" "Walloon";
  Language "cy" "wel/cym" "Welsh";
  Language "fy" "fry" "Western Frisian";
  Language "wo" "wol" "Wolof";
  Language "xh" "xho" "Xhosa";
  Language "yi" "yid" "Yiddish";
  Language "yo" "yor" "Yoruba";
  Language "za" "zha" "Zhuang";
  Language "zu" "zul" "Zulu";
  Country "AD" "Andorra";
  Country "AE" "United Arab Emirates";
  Country "AF" "Afghanistan";
  Country "AG" "Antigua and Barbuda";
  Country "AI" "Anguilla";
  Country "AL" "Albania";
  Country "AM" "Armenia";
  Country "AO" "Angola";
  Country "AQ" "Antarctica";
  Country "AR" "Argentina";
  Country "AS" "American Samoa";
  Country "AT" "Austria";
  Country "AU" "Australia";
  Country "AW" "Aruba";
  Country "AX" (chr 197 +:+ "land Islands");
  Country "AZ" "Azerbaijan";
  Country "BA" "Bosnia and Herzegovina";
  Country "BB" "Barbados";
  Country "BD" "Bangladesh";
  Country "BE" "Belgium";
  Country "BF" "Burkina Faso";
  Country "BG" "Bulgaria";
  Country "BH" "Bahrain";
  Country "BI" "Burundi";
  Country "BJ" "Benin";
  Country "BL" ("Saint Barth" +:+ chr 233 +:+ "lemy");
  Country "BM" "Bermuda";
  Country "BN" "Brunei Darussalam";
  Country "BO" "Bolivia (Plurinational State of)";
  Country "BQ" "Bonaire, Sint Eustatius and Saba";
  Country "BR" "Brazil";
  Country "BS" "Bahamas";
  Country "BT" "Bhutan";
  Country "BV" "Bouvet Island";
  Country "BW" "Botswana";
  Country "BY" "Belarus";
  Country "BZ" "Belize";
  Country "CA" "Canada";
  Country "CC" "Cocos (Keeling) Islands";
  Country "CD" "Congo, Democratic Republic of the";
  Country "CF" "Central African Republic";
  Country "CG" "Congo";
  Country "CH" "Switzerland";
  Country "CI" ("C" +:+ chr 244 +:+ "te d'Ivoire");
  Country "CK" "Cook Islands";
  Country "CL" "Chile";
  Country "CM" "Cameroon";
  Country "CN" "China";
  Country "CO" "Colombia";
  Country "CR" "Costa Rica";
  Country "CU" "Cuba";
  Country "CV" "Cabo Verde";
  Country "CW" ("Cura" +:+ chr 231 +:+ "ao");
  Country "CX" "Christmas Island";
  Country "CY" "Cyprus";
  Country "CZ" "Czechia";
  Country "DE" "Germany";
  Country "DJ" "Djibouti";
  Country "DK" "Denmark";
  Country "DM" "Dominica";
  Country "DO" "Dominican Republic";
  Country "DZ" "Algeria";
  Country "EC" "Ecuador";
  Country "EE" "Estonia";
  Country "EG" "Egypt";
  Country "EH" "Western Sahara";
  Country "ER" "Eritrea";
  Country "ES" "Spain";
  Country "ET" "Ethiopia";
  Country "FI" "Finland";
  Country "FJ" "Fiji";
  Country "FK" "Falkland Islands (Malvinas)";
  Country "FM" "Micronesia (Federated States of)";
  Country "FO" "Faroe Islands";
  Country "FR" "France";
  Country "GA" "Gabon";
  Country "GB" "United Kingdom of Great Britain and Northern Ireland";
  Country "GD" "Grenada";
  Country "GE" "Georgia";
  Country "GF" "French Guiana";
  Country "GG" "Guernsey";
  Country "GH" "Ghana";
  Country "GI" "Gibraltar";
  Country "GL" "Greenland";
  Country "GM" "Gambia";
  Country "GN" "Guinea";
  Country "GP" "Guadeloupe";
  Country "GQ" "Equatorial Guinea";
  Country "GR" "Greece";
  Country "GS" "South Georgia and the South Sandwich Islands";
  Country "GT" "Guatemala";
  Country "GU" "Guam";
  Country "GW" "Guinea-Bissau";
  Country "GY" "Guyana";
  Country "HK" "Hong Kong";
  Country "HM" "Heard Island and McDonald Islands";
  Country "HN" "Honduras";
  Country "HR" "Croatia";
  Country "HT" "Haiti";
  Country "HU" "Hungary";
  Country "ID" "Indonesia";
  Country "IE" "Ireland";
  Country "IL" "Israel";
  Country "IM" "Isle of Man";
  Country "IN" "India";
  Country "IO" "British Indian Ocean Territory";
  Country "IQ" "Iraq";
  Country "IR" "Iran (Islamic Republic of)";
  Country "IS" "Iceland";
  Country "IT" "Italy";
  Country "JE" "Jersey";
  Country "JM" "Jamaica";
  Country "JO" "Jordan";
  Country "JP" "Japan";
  Country "KE" "Kenya";
  Country "KG" "Kyrgyzstan";
  Country "KH" "Cambodia";
  Country "KI" "Kiribati";
  Country "KM" "Comoros";
  Country "KN" "Saint Kitts and Nevis";
  Country "KP" "Korea (Democratic People's Republic of)";
  Country "KR" "Korea, Republic of";
  Country "KW" "Kuwait";
  Country "KY" "Cayman Islands";
  Country "KZ" "Kazakhstan";
  Country "LA" "Lao People's Democratic Republic";
  Country "LB" "Lebanon";
  Country "LC" "Saint Lucia";
  Country "LI" "Liechtenstein";
  Country "LK" "Sri Lanka";
  Country "LR" "Liberia";
  Country "LS" "Lesotho";
  Country "LT" "Lithuania";
  Country "LU" "Luxembourg";
  Country "LV" "Latvia";
  Country "LY" "Libya";
  Country "MA" "Morocco";
  Country "MC" "Monaco";
  Country "MD" "Moldova, Republic of";
  Country "ME" "Montenegro";
  Country "MF" "Saint Martin (French part)";
  Country "MG" "Madagascar";
  Country "MH" "Marshall Islands";
  Country "MK" "North Macedonia";
  Country "ML" "Mali";
  Country "MM" "Myanmar";
  Country "MN" "Mongolia";
  Country "MO" "Macao";
  Country "MP" "Northern Mariana Islands";
  Country "MQ" "Martinique";
  Country "MR" "Mauritania";
  Country "MS" "Montserrat";
  Country "MT" "Malta";
  Country "MU" "Mauritius";
  Country "MV" "Maldives";
  Country "MW" "Malawi";
  Country "MX" "Mexico";
  Country "MY" "Malaysia";
  Country "MZ" "Mozambique";
  Country "NA" "Namibia";
  Country "NC" "New Caledonia";
  Country "NE" "Niger";
  Country "NF" "Norfolk Island";
  Country "NG" "Nigeria";
  Country "NI" "Nicaragua";
  Country "NL" "Netherlands[note 1]";
  Country "NO" "Norway";
  Country "NP" "Nepal";
  Country "NR" "Nauru";
  Country "NU" "Niue";
  Country "NZ" "New Zealand";
  Country "OM" "Oman";
  Country "PA" "Panama";
  Country "PE" "Peru";
  Country "PF" "French Polynesia";
  Country "PG" "Papua New Guinea";
  Country "PH" "Philippines";
  Country "PK" "Pakistan";
  Country "PL" "Poland";
  Country "PM" "Saint Pierre and Miquelon";
  Country "PN" "Pitcairn";
  Country "PR" "Puerto Rico";
  Country "PS" "Palestine, State of";
  Country "PT" "Portugal";
  Country "PW" "Palau";
  Country "PY" "Paraguay";
  Country "QA" "Qatar";
  Country "RE" ("R" +:+ chr 233 +:+ "union");
  Country "RO" "Romania";
  Country "RS" "Serbia";
  Country "RU" "Russian Federation";
  Country "RW" "Rwanda";
  Country "SA" "Saudi Arabia";
  Country "SB" "Solomon Islands";
  Country "SC" "Seychelles";
  Country "SD" "Sudan";
  Country "SE" "Sweden";
  Country "SG" "Singapore";
  Country "SH" "Saint Helena, Ascension and Tristan da Cunha";
  Country "SI" "Slovenia";
  Country "SJ" "Svalbard and Jan Mayen";
  Country "SK" "Slovakia";
  Country "SL" "Sierra Leone";
  Country "SM" "San Marino";
  Country "SN" "Senegal";
  Country "SO" "Somalia";
  Country "SR" "Suriname";
  Country "SS" "South Sudan";
  Country "ST" "Sao Tome and Principe";
  Country "SV" "El Salvador";
  Country "SX" "Sint Maarten (Dutch part)";
  Country "SY" "Syrian Arab Republic";
  Country "SZ" "Eswatini";
  Country "TC" "Turks and Caicos Islands";
  Country "TD" "Chad";
  Country "TF" "French Southern Territories";
  Country "TG" "Togo";
  Country "TH" "Thailand";
  Country "TJ" "Tajikistan";
  Country "TK" "Tokelau";
  Country "TL" "Timor-Leste";
  Country "TM" "Turkmenistan";
  Country "TN" "Tunisia";
  Country "TO" "Tonga";
  Country "TR" "Turkey";
  Country "TT" "Trinidad and Tobago";
  Country "TV" "Tuvalu";
  Country "TW" "Taiwan, Province of China [note 2]";
  Country "TZ" "Tanzania, United Republic of";
  Country "UA" "Ukraine";
  Country "UG" "Uganda";
  Country "UM" "United States Minor Outlying Islands";
  Country "US" "United States of America";
  Country "UY" "Uruguay";
  Country "UZ" "Uzbekistan";
  Country "VA" "Holy See";
  Country "VC" "Saint Vincent and the Grenadines";
  Country "VE" "Venezuela (Bolivarian Republic of)";
  Country "VG" "Virgin Islands (British)";
  Country "VI" "Virgin Islands (U.S.)";
  Country "VN" "Viet Nam";
  Country "VU" "Vanuatu";
  Country "WF" "Wallis and Futuna";
  Country "WS" "Samoa";
  Country "YE" "Yemen";
  Country "YT" "Mayotte";
  Country "ZA" "South Africa";
  Country "ZM" "Zambia";
  Country "ZW" "Zimbabwe"
].

End Seed.

Definition run_seed (c : seed_call) : M unit :=
  match c with
  | SLanguage iso1 iso2 ename => new_Language iso1 iso2 ename ;;; ret tt
  | SCountry alpha2 name => new_Country alpha2 name ;;; ret tt
  end.

(** Importing the module: every call of the seed data, in order. *)
Definition module_body : M unit := for_each Seed.calls run_seed.

(** The state right after import. *)
Definition module_state : state := snd (module_body empty_state).

(** * Notions used in the statements *)

(** The slots of an instance right after its constructor returned. *)
Definition Language_slots (iso1 iso2 ename : string) : gmap string value :=
  <[mangle "LocaleBase" "__immutable" := VBool true]>
    (<["englishname" := VStr ename]>
       (<["ISO639_2" := VStr iso2]> (<["ISO639_1" := VStr iso1]> ∅))).


(** Every object of [s] is still there, unchanged, in [s']. *)
Definition heap_extends (s s' : state) : Prop :=
  forall a o, heap s !! a = Some o -> heap s' !! a = Some o.

(** The exception of a failed lookup. *)
Definition unknown_code (cls : class) (shown : string) : exn :=
  TMDBLocaleError ("'" +:+ shown +:+ "' is not a known valid " +:+ class_name cls +:+ " code.").

(** Lexicographic order on text, by code point: a proper prefix comes
    first, otherwise the first differing position decides. *)
Inductive lex_lt : string -> string -> Prop :=
| lex_lt_prefix (c : ascii) (t : string) : lex_lt EmptyString (String c t)
| lex_lt_head (c d : ascii) (s t : string) :
    (Text.code c < Text.code d)%N -> lex_lt (String c s) (String d t)
| lex_lt_tail (c : ascii) (s t : string) :
    lex_lt s t -> lex_lt (String c s) (String c t).

(** The code by which a part of a locale is known: [ISO639_1] of a
    language, [alpha2] of a country, and the word None for no part. *)
Definition primary_code (s : state) (part : value) : option string :=
  match part with
  | VNone => Some "None"
  | VRef a =>
      match heap s !! a with
      | Some o =>
          match ob_class o with
          | Language =>
              match ob_slots o !! "ISO639_1" with Some (VStr t) => Some t | _ => None end
          | Country =>
              match ob_slots o !! "alpha2" with Some (VStr t) => Some t | _ => None end
          | Locale => None
          end
      | None => None
      end
  | _ => None
  end.

(** The registry after [self] was stored under every key of [keys]. *)
Definition register_all (self : addr) (keys : list string)
    (d : gmap string addr) : gmap string addr :=
  fold_left (fun d k => <[Text.lower k := self]> d) keys d.

(** [encoding if encoding else 'latin-1'] *)
Definition encoding_or_default (encoding : value) : value :=
  if truthy encoding then encoding else VStr "latin-1".

Definition Locale_slots (language country encoding : value) : gmap string value :=
  <[mangle "LocaleBase" "__immutable" := VBool true]>
    (<["encoding" := encoding_or_default encoding]>
       (<["country" := country]> (<["language" := language]> ∅))).

(** A sample host, for running the module: no locale is set in the
    environment, and the codecs are ascii and latin-1, which map a code
    point to the octet of the same number when it is in their range. *)
Definition all_below (limit : N) (l : list ascii) : bool :=
  forallb (fun c => (Text.code c <? limit)%N) l.

Definition sample_limit (name : string) : option N :=
  if String.eqb name "ascii" then Some 128%N
  else if String.eqb name "latin-1" then Some 256%N
  else None.

Definition sample_encode (text name : string) : res (list Byte.byte) :=
  match sample_limit name with
  | None => Raise LookupError
  | Some limit =>
      if all_below limit (list_ascii_of_string text)
      then Ok (map byte_of_ascii (list_ascii_of_string text))
      else Raise UnicodeEncodeError
  end.

Definition sample_decode (octets : list Byte.byte) (name : string) : res string :=
  match sample_limit name with
  | None => Raise LookupError
  | Some limit =>
      if all_below limit (map ascii_of_byte octets)
      then Ok (string_of_list_ascii (map ascii_of_byte octets))
      else Raise UnicodeDecodeError
  end.

Definition sample_host : host :=
  {| getdefaultlocale := (None, None);
     codec_encode := sample_encode;
     codec_decode := sample_decode |}.

(** The keys under which a call of the seed data registers its entity. *)
Definition keys_of (c : seed_call) : list string :=
  match c with
  | SLanguage iso1 iso2 _ => [iso1; iso2]
  | SCountry alpha2 _ => [alpha2]
  end.

Definition seed_keys : list string := flat_map keys_of Seed.calls.

(** An argument that was supplied overrides the base value. *)
Definition override (argument : value) (base : string) : value :=
  if is_None argument then VStr base else argument.

(** The last line of [set_locale]: build the locale and make it the
    current one. *)
Definition install (language country encoding : value) : M unit :=
  (loc <- new_Locale language country encoding [] ;;
   modify (set_syslocale (VRef loc)))%py.

(** Every entity of the two registries has a string form. *)
Definition registry_ok (s : state) : Prop :=
  forall (cls : class) (k : string) (a : addr),
    cls <> Locale ->
    stored_of cls s !! k = Some a ->
    exists code, str_at recursion_limit s (VRef a) = Ok code.

Definition has_str (s : state) (entry : string * addr) : bool :=
  match str_at recursion_limit s (VRef (snd entry)) with
  | Ok _ => true
  | Raise _ => false
  end.

(** The same, as a test that runs. *)
Definition registry_okb (s : state) : bool :=
  forallb (has_str s) (map_to_list (Language_stored s))
  && forallb (has_str s) (map_to_list (Country_stored s)).

(** * Further notions *)

(** What a computation may do to the state without being seen by the
    rest of the module: add objects.  The registries, the flag and the
    current locale are as before, and so is every object that existed. *)
Record frame (s s' : state) : Prop := mk_frame {
  frame_heap : heap_extends s s';
  frame_languages : Language_stored s' = Language_stored s;
  frame_countries : Country_stored s' = Country_stored s;
  frame_locales : LocaleBase_stored s' = LocaleBase_stored s;
  frame_fallthrough : fallthrough s' = fallthrough s;
  frame_syslocale : syslocale s' = syslocale s
}.

Definition framed {A} (m : M A) : Prop := forall s, frame s (snd (m s)).









(** * Properties *)

(** ** Attribute protocol *)

(** The slot of the flag is stored under its mangled name, so the
    literal name that [__setattr__] asks for is a slot of no class. *)
Lemma flag_literal_is_no_slot (c : class) : is_slot c "__immutable" = false.
Proof. destruct c; reflexivity. Qed.

Lemma flag_slot_is_mangled (c : class) :
  is_slot c (mangle "LocaleBase" "__immutable") = true.
Proof. destruct c; reflexivity. Qed.

Lemma getattr_flag_literal (a : addr) (s : state) :
  getattr_default a "__immutable" (VBool false) s
  = match heap s !! a with
    | Some _ => Ok (VBool false)
    | None => Raise SystemError
    end.
Proof.
  unfold getattr_default, getattr.
  destruct (heap s !! a) as [o|]; [|reflexivity].
  now rewrite flag_literal_is_no_slot.
Qed.

(** The guard of [__setattr__] never fires: the method is
    [object.__setattr__]. *)
Lemma LocaleBase_setattr_unguarded (self : addr) (key : string) (v : value) (s : state) :
  LocaleBase_setattr self key v s = object_setattr self key v s.
Proof.
  unfold LocaleBase_setattr, bind, reading.
  rewrite getattr_flag_literal. unfold object_setattr.
  destruct (heap s !! self) eqn:E; simpl; [now rewrite E | reflexivity].
Qed.

Lemma LocaleBase_delattr_unguarded (self : addr) (key : string) (s : state) :
  LocaleBase_delattr self key s = object_delattr self key s.
Proof.
  unfold LocaleBase_delattr, bind, reading.
  rewrite getattr_flag_literal. unfold object_delattr.
  destruct (heap s !! self) eqn:E; simpl; [now rewrite E | reflexivity].
Qed.

(** ** The newest object of the heap *)

Lemma lookup_last {A} (l : list A) (x : A) : (l ++ [x])%list !! List.length l = Some x.
Proof. induction l as [|z l IH]; simpl; auto. Qed.

Lemma insert_last {A} (l : list A) (x y : A) : <[List.length l := y]> (l ++ [x])%list = (l ++ [y])%list.
Proof. induction l as [|z l IH]; simpl; [reflexivity|]. now f_equal. Qed.

Lemma lookup_older {A} (l : list A) (x y : A) (a : nat) :
  l !! a = Some x -> (l ++ [y])%list !! a = Some x.
Proof. revert a. induction l as [|z l IH]; intros [|a]; simpl; try discriminate; auto. Qed.

(** Assignment to a slot of the object allocated last. *)
Lemma setattr_last (l : list pyobj) (c : class) (m : gmap string value)
    (key : string) (v : value) (s : state) :
  heap s = (l ++ [mk_obj c m])%list ->
  is_slot c key = true ->
  LocaleBase_setattr (length l) key v s
  = (Ok tt, set_heap (l ++ [mk_obj c (<[key := v]> m)])%list s).
Proof.
  intros Hh Hk. rewrite LocaleBase_setattr_unguarded.
  unfold object_setattr. rewrite Hh, lookup_last. simpl. rewrite Hk.
  unfold write_slots, modify. simpl. now rewrite Hh, insert_last.
Qed.

(** ** What the constructors of [Language] and [Country] leave behind *)

Ltac state_simpl :=
  cbn [set_heap set_stored stored_of set_fallthrough set_syslocale ob_class ob_slots
       heap Language_stored Country_stored LocaleBase_stored fallthrough syslocale].

Ltac step_setattr := erewrite setattr_last by reflexivity; state_simpl.

Lemma new_Language_spec (iso1 iso2 ename : string) (s : state) :
  new_Language iso1 iso2 ename s
  = (Ok (List.length (heap s)),
     mk_state (heap s ++ [mk_obj Language (Language_slots iso1 iso2 ename)])%list
       (<[Text.lower iso2 := List.length (heap s)]>
          (<[Text.lower iso1 := List.length (heap s)]> (Language_stored s)))
       (Country_stored s) (LocaleBase_stored s) (fallthrough s) (syslocale s)).
Proof.
  destruct s as [hp L C B f sl].
  unfold new_Language, new_object, Language_init, LocaleBase_init, bind, ret.
  state_simpl. do 3 step_setattr.
  unfold for_each, bind, reading, class_of, modify, ret. state_simpl.
  rewrite lookup_last. state_simpl. rewrite lookup_last. state_simpl.
  step_setattr. reflexivity.
Qed.


(** ** String forms *)

Lemma recursion_limit_S : recursion_limit = S 999.
Proof. reflexivity. Qed.

#[global] Opaque recursion_limit.

Lemma str_at_text (d : nat) (s : state) (t : string) : str_at d s (VStr t) = Ok t.
Proof. destruct d; reflexivity. Qed.

Lemma str_at_None (d : nat) (s : state) : str_at d s VNone = Ok "None".
Proof. destruct d; reflexivity. Qed.

(** Values that are not instances always have a string form. *)
Lemma str_at_builtin (d : nat) (s : state) (v : value) :
  (forall a, v <> VRef a) -> exists t, str_at d s v = Ok t.
Proof.
  intros Hv. destruct v as [| [|] | z | t | b | a]; destruct d; simpl; eauto;
    exfalso; eapply Hv; reflexivity.
Qed.

Lemma heap_extends_refl (s : state) : heap_extends s s.
Proof. intros a o H. exact H. Qed.


Lemma heap_extends_alloc (s s' : state) (o : pyobj) :
  heap s' = (heap s ++ [o])%list -> heap_extends s s'.
Proof. intros E a x H. rewrite E. now apply lookup_older. Qed.

Lemma class_of_extends (s s' : state) (a : addr) (c : class) :
  heap_extends s s' -> class_of a s = Ok c -> class_of a s' = Ok c.
Proof.
  unfold class_of. intros Hx H. destruct (heap s !! a) as [o|] eqn:E; [|discriminate].
  now rewrite (Hx _ _ E).
Qed.

Lemma getattr_extends (s s' : state) (a : addr) (name : string) (v : value) :
  heap_extends s s' -> getattr a name s = Ok v -> getattr a name s' = Ok v.
Proof.
  unfold getattr. intros Hx H. destruct (heap s !! a) as [o|] eqn:E; [|discriminate].
  now rewrite (Hx _ _ E).
Qed.

(** A string form that is defined stays the same when objects are added. *)
Lemma str_at_extends (d : nat) (s s' : state) (v : value) (t : string) :
  heap_extends s s' -> str_at d s v = Ok t -> str_at d s' v = Ok t.
Proof.
  intros Hx. revert v t. induction d as [|d IH]; intros v t; destruct v; simpl; auto.
  destruct (class_of a s) as [c|e] eqn:Ec; simpl; [|discriminate].
  rewrite (class_of_extends _ _ _ _ Hx Ec). simpl.
  destruct c.
  - destruct (getattr a "ISO639_1" s) as [r|e] eqn:Er; simpl; [|discriminate].
    now rewrite (getattr_extends _ _ _ _ _ Hx Er).
  - destruct (getattr a "alpha2" s) as [r|e] eqn:Er; simpl; [|discriminate].
    now rewrite (getattr_extends _ _ _ _ _ Hx Er).
  - destruct (getattr a "language" s) as [l|e] eqn:El; simpl; [|discriminate].
    rewrite (getattr_extends _ _ _ _ _ Hx El). simpl.
    destruct (str_at d s l) as [ls|e] eqn:Els; simpl; [|discriminate].
    rewrite (IH _ _ Els). simpl.
    destruct (getattr a "country" s) as [c|e] eqn:Ecn; simpl; [|discriminate].
    rewrite (getattr_extends _ _ _ _ _ Hx Ecn). simpl.
    destruct (str_at d s c) as [cs|e] eqn:Ecs; simpl; [|discriminate].
    now rewrite (IH _ _ Ecs).
Qed.

(** ** Registry lookups *)

Lemma getstored_None (cls : class) (s : state) : getstored cls VNone s = (Ok VNone, s).
Proof. reflexivity. Qed.

Lemma getstored_text (cls : class) (k : string) (s : state) :
  getstored cls (VStr k) s
  = (match stored_of cls s !! Text.lower k with
     | Some a => Ok (VRef a)
     | None => Raise (unknown_code cls k)
     end, s).
Proof.
  unfold getstored, try_except, bind, py_lower, ret, stored_getitem. cbn [is_None].
  destruct (stored_of cls s !! Text.lower k); [reflexivity|].
  unfold py_str, reading, raise. now rewrite str_at_text.
Qed.

(** A key that is neither [None] nor text is never found. *)
Lemma getstored_other (cls : class) (key : value) (s : state) :
  key <> VNone -> (forall k, key <> VStr k) ->
  getstored cls key s
  = (match str_at recursion_limit s key with
     | Ok shown => Raise (unknown_code cls shown)
     | Raise e => Raise e
     end, s).
Proof.
  intros Hn Ht. unfold getstored, try_except, bind, py_str, reading, raise.
  destruct key as [| b | z | k | b | a];
    try (exfalso; (apply Hn; reflexivity) || (eapply Ht; reflexivity));
    cbn [is_None py_lower stored_getitem raise ret];
    destruct (str_at recursion_limit s _); reflexivity.
Qed.

(** ** Runs on small inputs *)

Example mangled_flag : mangle "LocaleBase" "__immutable" = "_LocaleBase__immutable".
Proof. reflexivity. Qed.

Example dunder_method_is_not_mangled : mangle "LocaleBase" "__init__" = "__init__".
Proof. reflexivity. Qed.

Example lower_code : Text.lower "ALB/sqi" = "alb/sqi".
Proof. reflexivity. Qed.

Example upper_code : Text.upper "en_us" = Some "EN_US".
Proof. reflexivity. Qed.

Example split_host_locale : Text.split "_" "en_US" = ["en"; "US"].
Proof. reflexivity. Qed.

Example split_without_separator : Text.split "_" "C" = ["C"].
Proof. reflexivity. Qed.

Example str_of_sentinel : Text.of_Z (-1) = "-1".
Proof. reflexivity. Qed.

Example repr_of_bytes : Text.repr_bytes [Byte.x45; Byte.x4e; Byte.x0a] = "b'EN" +:+ Text.escape "n" +:+ "'".
Proof. reflexivity. Qed.

(** The seed data makes 468 instances; a code that several lines
    register leads to the instance of the last of them. *)
Example seed_size : List.length (heap module_state) = 468%nat.
Proof. vm_compute. reflexivity. Qed.

Example seed_alias :
  Language_stored module_state !! "dv" = Some 118%nat
  /\ Language_stored module_state !! "div" = Some 118%nat
  /\ getattr 118 "englishname" module_state = Ok (VStr "Maldivian").
Proof.
  split; [vm_compute; reflexivity|].
  split; vm_compute; reflexivity.
Qed.

Example seed_registry_ok : registry_okb module_state = true.
Proof. vm_compute. reflexivity. Qed.

(** While no current locale is set, [get_locale("fr")] returns a locale
    with the language fr and no country. *)
Example get_locale_before_set_locale :
  let got := get_locale sample_host (VStr "fr") unset module_state in
  fst got = Ok (VRef 469)
  /\ getattr 469 "language" (snd got) = Ok (VRef 56)
  /\ getattr 469 "country" (snd got) = Ok VNone
  /\ getattr 469 "encoding" (snd got) = Ok (VStr "latin-1")
  /\ fst (py_str (VRef 469) (snd got)) = Ok "fr_None"
  /\ syslocale (snd got) = VNone.
Proof.
  cbv zeta.
  split; [vm_compute; reflexivity|].
  split; [vm_compute; reflexivity|].
  split; [vm_compute; reflexivity|].
  split; [vm_compute; reflexivity|].
  split; vm_compute; reflexivity.
Qed.

(** [get_locale()] returns the current locale itself, and
    [get_locale("fr", "FR")] a new one. *)
Example get_locale_after_set_locale :
  let s := snd (set_locale sample_host (VStr "en") (VStr "US") (VBool false) module_state) in
  fst (get_locale sample_host unset unset s) = Ok (VRef 468)
  /\ fst (get_locale sample_host (VStr "fr") (VStr "FR") s) = Ok (VRef 469)
  /\ fst (py_str (VRef 469) (snd (get_locale sample_host (VStr "fr") (VStr "FR") s)))
     = Ok "fr_FR".
Proof.
  cbv zeta.
  split; [vm_compute; reflexivity|].
  split; vm_compute; reflexivity.
Qed.

(** ** Claims about the registries *)

(** C4.  Looking up [None] in the registry of a class answers [None] and
    raises nothing.  Looking up a text key answers the entity stored
    under the lower-cased key when there is one, and otherwise raises
    [TMDBLocaleError] with a message that quotes the key as it was given
    and names the class.  The state is left as it was. *)
Theorem getstored_known_unknown (cls : class) (k : string) (s : state) :
  getstored cls VNone s = (Ok VNone, s)
  /\ getstored cls (VStr k) s
     = (match stored_of cls s !! Text.lower k with
        | Some entity => Ok (VRef entity)
        | None =>
            Raise (TMDBLocaleError
                     ("'" +:+ k +:+ "' is not a known valid "
                          +:+ class_name cls +:+ " code."))
        end, s).
Proof. split; [apply getstored_None | apply getstored_text]. Qed.

(** ** Claims about immutability *)

Lemma getattr_last (l : list pyobj) (c : class) (m : gmap string value)
    (name : string) (s : state) :
  heap s = (l ++ [mk_obj c m])%list ->
  is_slot c name = true ->
  getattr (List.length l) name s
  = match m !! name with Some v => Ok v | None => Raise AttributeError end.
Proof.
  intros Hh Hk. unfold getattr. rewrite Hh, lookup_last. simpl. now rewrite Hk.
Qed.

Lemma delattr_last (l : list pyobj) (c : class) (m : gmap string value)
    (key : string) (v : value) (s : state) :
  heap s = (l ++ [mk_obj c m])%list ->
  is_slot c key = true ->
  m !! key = Some v ->
  LocaleBase_delattr (List.length l) key s
  = (Ok tt, set_heap (l ++ [mk_obj c (delete key m)])%list s).
Proof.
  intros Hh Hk Hv. rewrite LocaleBase_delattr_unguarded.
  unfold object_delattr. rewrite Hh, lookup_last. simpl. rewrite Hk, Hv.
  unfold write_slots, modify. simpl. now rewrite Hh, insert_last.
Qed.

Lemma Language_slots_englishname (iso1 iso2 ename : string) :
  Language_slots iso1 iso2 ename !! "englishname" = Some (VStr ename).
Proof.
  unfold Language_slots. rewrite lookup_insert_ne by discriminate.
  apply lookup_insert_eq.
Qed.

Lemma object_setattr_outcome (a : addr) (key : string) (v : value) (s : state) :
  fst (object_setattr a key v s) = Ok tt
  \/ fst (object_setattr a key v s) = Raise AttributeError
  \/ fst (object_setattr a key v s) = Raise TypeError
  \/ fst (object_setattr a key v s) = Raise SystemError.
Proof.
  unfold object_setattr. destruct (heap s !! a) as [o|]; [|auto].
  destruct (is_slot (ob_class o) key); [auto|].
  destruct (String.eqb key "__class__"); auto.
Qed.

Lemma object_delattr_outcome (a : addr) (key : string) (s : state) :
  fst (object_delattr a key s) = Ok tt
  \/ fst (object_delattr a key s) = Raise AttributeError
  \/ fst (object_delattr a key s) = Raise TypeError
  \/ fst (object_delattr a key s) = Raise SystemError.
Proof.
  unfold object_delattr. destruct (heap s !! a) as [o|]; [|auto].
  destruct (is_slot (ob_class o) key).
  - destruct (ob_slots o !! key); auto.
  - destruct (String.eqb key "__class__"); auto.
Qed.

(** C2, as the code has it.  The claim says that setting or deleting an
    attribute of a constructed entity raises the modification error.
    The code never raises it: on no object and for no attribute does
    [__setattr__] or [__delattr__] answer [NotImplementedError].  After
    [Language(iso1, iso2, ename)] returned, with the flag slot set to
    [True], assigning to [englishname] succeeds and the new value is
    read back, and deleting [englishname] succeeds and leaves the slot
    unset. *)
Theorem modification_is_never_refused
    (iso1 iso2 ename : string) (v : value) (s : state) :
  (forall (self : addr) (key : string) (w : value) (s0 : state) (msg : string),
      fst (LocaleBase_setattr self key w s0) <> Raise (NotImplementedError msg)
      /\ fst (LocaleBase_delattr self key s0) <> Raise (NotImplementedError msg))
  /\ let self := List.length (heap s) in
     let s1 := snd (new_Language iso1 iso2 ename s) in
     fst (new_Language iso1 iso2 ename s) = Ok self
     /\ getattr self (mangle "LocaleBase" "__immutable") s1 = Ok (VBool true)
     /\ getattr self "englishname" s1 = Ok (VStr ename)
     /\ (exists s2, LocaleBase_setattr self "englishname" v s1 = (Ok tt, s2)
                    /\ getattr self "englishname" s2 = Ok v)
     /\ (exists s2, LocaleBase_delattr self "englishname" s1 = (Ok tt, s2)
                    /\ getattr self "englishname" s2 = Raise AttributeError).
Proof.
  split.
  { intros self key w s0 msg.
    rewrite LocaleBase_setattr_unguarded, LocaleBase_delattr_unguarded. split.
    - destruct (object_setattr_outcome self key w s0) as [E|[E|[E|E]]];
        rewrite E; discriminate.
    - destruct (object_delattr_outcome self key s0) as [E|[E|[E|E]]];
        rewrite E; discriminate. }
  intros self s1. subst self s1. rewrite new_Language_spec. cbn [fst snd].
  split; [reflexivity|].
  split.
  { erewrite getattr_last by reflexivity. unfold Language_slots. now rewrite lookup_insert_eq. }
  split.
  { erewrite getattr_last by reflexivity. now rewrite Language_slots_englishname. }
  split.
  - eexists. split.
    + erewrite setattr_last by reflexivity. reflexivity.
    + erewrite getattr_last by reflexivity. now rewrite lookup_insert_eq.
  - eexists. split.
    + erewrite delattr_last;
        [reflexivity | reflexivity | reflexivity | apply Language_slots_englishname].
    + erewrite getattr_last by reflexivity. now rewrite lookup_delete_eq.
Qed.

(** ** Order and equality *)

Lemma ascii_compare_lt (c d : ascii) :
  Ascii.compare c d = Lt <-> (Text.code c < Text.code d)%N.
Proof. unfold Ascii.compare, Text.code. apply N.compare_lt_iff. Qed.

Lemma ascii_compare_refl (c : ascii) : Ascii.compare c c = Eq.
Proof. unfold Ascii.compare. apply N.compare_refl. Qed.

Lemma compare_lex (s t : string) : String.compare s t = Lt <-> lex_lt s t.
Proof.
  revert t. induction s as [|c s IH]; intros [|d t]; simpl.
  - split; [discriminate | inversion 1].
  - split; [constructor | reflexivity].
  - split; [discriminate | inversion 1].
  - destruct (Ascii.compare c d) eqn:E.
    + apply Ascii.compare_eq_iff in E. subst d. rewrite IH. split.
      * apply lex_lt_tail.
      * inversion 1 as [| ? ? ? ? Hlt | ]; subst; [exfalso; lia | assumption].
    + split; [intros _; apply lex_lt_head; now apply ascii_compare_lt | reflexivity].
    + split; [discriminate|]. inversion 1 as [| ? ? ? ? Hlt | ]; subst.
      * apply ascii_compare_lt in Hlt. congruence.
      * rewrite ascii_compare_refl in E. discriminate.
Qed.

(** The comparison the interpreter makes is the lexicographic order. *)
Lemma ltb_lex (s t : string) : String.ltb s t = true <-> lex_lt s t.
Proof.
  rewrite <- compare_lex. unfold String.ltb.
  destruct (String.compare s t); split; congruence.
Qed.


Lemma py_str_run (v : value) (s : state) :
  py_str v s = (str_at recursion_limit s v, s).
Proof. reflexivity. Qed.

Lemma ref_eq_decide (a b : addr) : bool_decide (VRef a = VRef b) = bool_decide (a = b).
Proof. apply bool_decide_ext. split; congruence. Qed.

Lemma LocaleBase_lt_run (a b : addr) (sa sb : string) (s : state) :
  str_at recursion_limit s (VRef a) = Ok sa ->
  str_at recursion_limit s (VRef b) = Ok sb ->
  LocaleBase_lt a (VRef b) s = (Ok (negb (bool_decide (a = b)) && String.ltb sb sa), s).
Proof.
  intros Ha Hb. unfold LocaleBase_lt. rewrite ref_eq_decide.
  destruct (bool_decide (a = b)); [reflexivity|].
  cbn [negb andb]. unfold bind. rewrite !py_str_run, Ha, Hb. reflexivity.
Qed.

Lemma LocaleBase_gt_run (a b : addr) (sa sb : string) (s : state) :
  str_at recursion_limit s (VRef a) = Ok sa ->
  str_at recursion_limit s (VRef b) = Ok sb ->
  LocaleBase_gt a (VRef b) s = (Ok (negb (bool_decide (a = b)) && String.ltb sa sb), s).
Proof.
  intros Ha Hb. unfold LocaleBase_gt. rewrite ref_eq_decide.
  destruct (bool_decide (a = b)); [reflexivity|].
  cbn [negb andb]. unfold bind. rewrite !py_str_run, Ha, Hb. reflexivity.
Qed.

Lemma LocaleBase_eq_run (a b : addr) (sa sb : string) (s : state) :
  str_at recursion_limit s (VRef a) = Ok sa ->
  str_at recursion_limit s (VRef b) = Ok sb ->
  LocaleBase_eq a (VRef b) s = (Ok (bool_decide (a = b) || String.eqb sa sb), s).
Proof.
  intros Ha Hb. unfold LocaleBase_eq. rewrite ref_eq_decide.
  destruct (bool_decide (a = b)); [reflexivity|].
  cbn [orb]. unfold bind. rewrite !py_str_run, Ha, Hb. reflexivity.
Qed.

Lemma differ_and_lt (a b : addr) (x y : string) :
  negb (bool_decide (a = b)) && String.ltb x y = true <-> a <> b /\ lex_lt x y.
Proof.
  rewrite andb_true_iff, negb_true_iff, bool_decide_eq_false, ltb_lex. reflexivity.
Qed.

(** C3.  For two entities or locales [a] and [b] whose string forms are
    [sa] and [sb]: [a < b] is true exactly when they are different
    instances and [sb] comes before [sa] in lexicographic order, and
    [a > b] is true exactly when they are different instances and [sa]
    comes before [sb]; both comparisons answer a truth value and raise
    nothing.  So for different instances with forms en and fr, [a > b]
    is true and [a < b] is false; and [a < a] and [a > a] are false. *)
Theorem inverted_order (a b : addr) (sa sb : string) (s : state)
    (Ha : str_at recursion_limit s (VRef a) = Ok sa)
    (Hb : str_at recursion_limit s (VRef b) = Ok sb) :
  (exists r, LocaleBase_lt a (VRef b) s = (Ok r, s)
             /\ (r = true <-> a <> b /\ lex_lt sb sa))
  /\ (exists r, LocaleBase_gt a (VRef b) s = (Ok r, s)
                /\ (r = true <-> a <> b /\ lex_lt sa sb))
  /\ (a <> b -> sa = "en" -> sb = "fr" ->
      LocaleBase_gt a (VRef b) s = (Ok true, s)
      /\ LocaleBase_lt a (VRef b) s = (Ok false, s))
  /\ LocaleBase_lt a (VRef a) s = (Ok false, s)
  /\ LocaleBase_gt a (VRef a) s = (Ok false, s).
Proof.
  repeat split.
  - eexists. split; [apply (LocaleBase_lt_run _ _ _ _ _ Ha Hb) | apply differ_and_lt].
  - eexists. split; [apply (LocaleBase_gt_run _ _ _ _ _ Ha Hb) | apply differ_and_lt].
  - subst. rewrite (LocaleBase_gt_run _ _ _ _ _ Ha Hb).
    rewrite bool_decide_eq_false_2 by assumption. reflexivity.
  - subst. rewrite (LocaleBase_lt_run _ _ _ _ _ Ha Hb).
    rewrite bool_decide_eq_false_2 by assumption. reflexivity.
  - unfold LocaleBase_lt. now rewrite bool_decide_eq_true_2.
  - unfold LocaleBase_gt. now rewrite bool_decide_eq_true_2.
Qed.

Lemma inverted_order_witness :
  LocaleBase_gt 48 (VRef 56) module_state = (Ok true, module_state)
  /\ LocaleBase_lt 48 (VRef 56) module_state = (Ok false, module_state).
Proof.
  apply (inverted_order 48 56 "en" "fr" module_state).
  - vm_compute. reflexivity.
  - vm_compute. reflexivity.
  - lia.
  - reflexivity.
  - reflexivity.
Defined.

Lemma is_slot_ISO639_1 : is_slot Language "ISO639_1" = true.
Proof. reflexivity. Qed.

Lemma is_slot_alpha2 : is_slot Country "alpha2" = true.
Proof. reflexivity. Qed.

Lemma Language_slots_ISO639_1 (iso1 iso2 ename : string) :
  Language_slots iso1 iso2 ename !! "ISO639_1" = Some (VStr iso1).
Proof.
  unfold Language_slots. do 3 (rewrite lookup_insert_ne by discriminate).
  apply lookup_insert_eq.
Qed.


(** A part that has a primary code has it as its string form. *)
Lemma primary_code_str (d : nat) (s : state) (part : value) (p : string) :
  primary_code s part = Some p -> str_at (S d) s part = Ok p.
Proof.
  destruct part as [| b | z | t | b | a]; simpl; try discriminate.
  - congruence.
  - unfold class_of, getattr. destruct (heap s !! a) as [o|]; [|discriminate].
    simpl. destruct (ob_class o); [| |discriminate].
    + rewrite is_slot_ISO639_1.
      destruct (ob_slots o !! "ISO639_1") as [[| | | t | |]|]; simpl; congruence.
    + rewrite is_slot_alpha2.
      destruct (ob_slots o !! "alpha2") as [[| | | t | |]|]; simpl; congruence.
Qed.

Lemma primary_code_Language (s : state) (a : addr) (iso1 iso2 ename : string) :
  heap s !! a = Some (mk_obj Language (Language_slots iso1 iso2 ename)) ->
  primary_code s (VRef a) = Some iso1.
Proof. intros H. simpl. rewrite H. simpl. now rewrite Language_slots_ISO639_1. Qed.


Lemma str_at_primary (s : state) (part : value) (p : string) :
  primary_code s part = Some p -> str_at recursion_limit s part = Ok p.
Proof. rewrite recursion_limit_S. apply primary_code_str. Qed.

(** C8.  For two entities or locales [a] and [b] whose string forms are
    [sa] and [sb], [a == b] answers a truth value, which is true exactly
    when [a] and [b] are the same instance or [sa] and [sb] are the same
    text.  In particular two instances of [Language] built one after the
    other from the same [iso1] are different instances that compare
    equal. *)
Theorem equal_by_identity_or_string (a b : addr) (sa sb : string) (s : state)
    (Ha : str_at recursion_limit s (VRef a) = Ok sa)
    (Hb : str_at recursion_limit s (VRef b) = Ok sb) :
  (exists r, py_eq (VRef a) (VRef b) s = (Ok r, s)
             /\ (r = true <-> a = b \/ sa = sb))
  /\ (forall (iso1 iso2 ename iso2' ename' : string) (s0 : state),
        let first := new_Language iso1 iso2 ename s0 in
        let second := new_Language iso1 iso2' ename' (snd first) in
        exists x y,
          fst first = Ok x /\ fst second = Ok y /\ x <> y
          /\ py_eq (VRef x) (VRef y) (snd second) = (Ok true, snd second)).
Proof.
  split.
  - eexists. split; [apply (LocaleBase_eq_run _ _ _ _ _ Ha Hb)|].
    rewrite orb_true_iff, bool_decide_eq_true, String.eqb_eq. reflexivity.
  - intros iso1 iso2 ename iso2' ename' s0 first second. subst first second.
    rewrite !new_Language_spec. cbn [fst snd heap].
    exists (List.length (heap s0)), (List.length (heap s0 ++ [mk_obj Language (Language_slots iso1 iso2 ename)])%list).
    rewrite length_app. cbn [List.length].
    split; [reflexivity|]. split; [reflexivity|]. split; [lia|].
    cbn [py_eq]. erewrite (LocaleBase_eq_run _ _ iso1 iso1).
    + rewrite String.eqb_refl, orb_true_r. reflexivity.
    + apply str_at_primary. eapply primary_code_Language. cbn [heap].
      apply lookup_older, lookup_last.
    + apply str_at_primary. eapply primary_code_Language. cbn [heap].
      replace (List.length (heap s0) + 1)%nat
        with (List.length (heap s0 ++ [mk_obj Language (Language_slots iso1 iso2 ename)])%list)
        by (rewrite length_app; reflexivity).
      apply lookup_last.
Qed.

Lemma equal_by_identity_or_string_witness :
  exists r, py_eq (VRef 21) (VRef 137) module_state = (Ok r, module_state)
            /\ (r = true <-> 21%nat = 137%nat \/ "nb" = "nb").
Proof.
  apply (equal_by_identity_or_string 21 137 "nb" "nb" module_state).
  - vm_compute. reflexivity.
  - vm_compute. reflexivity.
Defined.

(** ** What the constructor of [Locale] leaves behind *)

Lemma getstored_state (cls : class) (key : value) (s : state) :
  getstored cls key s = (fst (getstored cls key s), s).
Proof.
  destruct key as [| b | z | k | b | a];
    [ reflexivity
    | rewrite getstored_other by discriminate; reflexivity
    | rewrite getstored_other by discriminate; reflexivity
    | rewrite getstored_text; reflexivity
    | rewrite getstored_other by discriminate; reflexivity
    | rewrite getstored_other by discriminate; reflexivity ].
Qed.

Lemma register_keys_run (self : addr) (c : class) (keys : list string) (s : state) :
  class_of self s = Ok c ->
  for_each keys (fun key =>
    c <- reading (class_of self) ;;
    modify (fun s => set_stored c (<[Text.lower key := self]> (stored_of c s)) s)) s
  = (Ok tt, set_stored c (register_all self keys (stored_of c s)) s).
Proof.
  revert s. induction keys as [|k keys IH]; intros s Hc.
  - simpl. unfold ret. destruct s, c; reflexivity.
  - cbn [for_each]. unfold bind at 1. unfold bind at 1. unfold reading at 1.
    rewrite Hc. unfold modify at 1.
    rewrite IH.
    + f_equal. destruct s, c; reflexivity.
    + unfold class_of in *. destruct s, c; exact Hc.
Qed.

Lemma LocaleBase_init_last (l : list pyobj) (c : class) (m : gmap string value)
    (keys : list string) (s : state) :
  heap s = (l ++ [mk_obj c m])%list ->
  LocaleBase_init (List.length l) keys s
  = (Ok tt,
     set_heap (l ++ [mk_obj c (<[mangle "LocaleBase" "__immutable" := VBool true]> m)])%list
       (set_stored c (register_all (List.length l) keys (stored_of c s)) s)).
Proof.
  intros Hh. unfold LocaleBase_init. unfold bind at 1.
  rewrite (register_keys_run _ c).
  - erewrite setattr_last; [| destruct s, c; exact Hh | apply flag_slot_is_mangled].
    reflexivity.
  - unfold class_of. now rewrite Hh, lookup_last.
Qed.

Lemma new_Locale_spec (language country encoding : value) (keys : list string)
    (s : state) :
  new_Locale language country encoding keys s
  = let self := List.length (heap s) in
    let s0 := set_heap (heap s ++ [mk_obj Locale ∅])%list s in
    match fst (getstored Language language s0) with
    | Raise e => (Raise e, s0)
    | Ok l =>
        let s1 := set_heap (heap s ++ [mk_obj Locale (<["language" := l]> ∅)])%list s in
        match fst (getstored Country country s1) with
        | Raise e => (Raise e, s1)
        | Ok c =>
            (Ok self,
             set_heap (heap s ++ [mk_obj Locale (Locale_slots l c encoding)])%list
               (set_stored Locale (register_all self keys (LocaleBase_stored s)) s))
        end
    end.
Proof.
  destruct s as [hp L C B f sl]. cbv zeta.
  unfold new_Locale, new_object, Locale_init. unfold bind at 1. state_simpl.
  unfold bind at 1. unfold bind at 1. rewrite getstored_state.
  destruct (fst (getstored Language language _)) as [l|e]; cbn [fst]; [|reflexivity].
  unfold bind at 1. step_setattr.
  unfold bind at 1. rewrite getstored_state.
  destruct (fst (getstored Country country _)) as [c|e]; cbn [fst]; [|reflexivity].
  unfold bind at 1. step_setattr.
  unfold bind at 1. step_setattr.
  erewrite LocaleBase_init_last by reflexivity. reflexivity.
Qed.

Lemma str_at_Locale (d : nat) (s : state) (loc : addr) (l c : value) (ls cs : string) :
  class_of loc s = Ok Locale ->
  getattr loc "language" s = Ok l ->
  getattr loc "country" s = Ok c ->
  str_at d s l = Ok ls ->
  str_at d s c = Ok cs ->
  str_at (S d) s (VRef loc) = Ok (ls +:+ "_" +:+ cs).
Proof.
  intros Hc Hl Hcn Hls Hcs. simpl. rewrite Hc. simpl.
  rewrite Hl. simpl. rewrite Hls. simpl. rewrite Hcn. simpl. now rewrite Hcs.
Qed.

(** ** String form of a locale *)

Lemma is_slot_language : is_slot Locale "language" = true.
Proof. reflexivity. Qed.

Lemma is_slot_country : is_slot Locale "country" = true.
Proof. reflexivity. Qed.

Lemma is_slot_encoding : is_slot Locale "encoding" = true.
Proof. reflexivity. Qed.

Lemma Locale_slots_language (l c e : value) : Locale_slots l c e !! "language" = Some l.
Proof.
  unfold Locale_slots. do 3 (rewrite lookup_insert_ne by discriminate).
  apply lookup_insert_eq.
Qed.

Lemma Locale_slots_country (l c e : value) : Locale_slots l c e !! "country" = Some c.
Proof.
  unfold Locale_slots. do 2 (rewrite lookup_insert_ne by discriminate).
  apply lookup_insert_eq.
Qed.

Lemma Locale_slots_encoding (l c e : value) :
  Locale_slots l c e !! "encoding" = Some (encoding_or_default e).
Proof.
  unfold Locale_slots. rewrite lookup_insert_ne by discriminate.
  apply lookup_insert_eq.
Qed.

(** C9.  The string form of a locale is the primary code of its
    language, an underscore, and the primary code of its country, where
    the primary code of an absent part is the word None; computing it
    raises nothing and changes nothing.  A locale built from [None] and
    [None] has the form None_None, whatever the encoding and the state
    it is built in. *)
Theorem Locale_string_form (loc : addr) (l c : value) (pl pc : string) (s : state)
    (Hloc : class_of loc s = Ok Locale)
    (Hl : getattr loc "language" s = Ok l)
    (Hc : getattr loc "country" s = Ok c)
    (Hpl : primary_code s l = Some pl)
    (Hpc : primary_code s c = Some pc) :
  py_str (VRef loc) s = (Ok (pl +:+ "_" +:+ pc), s)
  /\ (forall (encoding : value) (keys : list string) (s0 : state),
        let built := new_Locale VNone VNone encoding keys s0 in
        fst built = Ok (List.length (heap s0))
        /\ fst (py_str (VRef (List.length (heap s0))) (snd built)) = Ok "None_None").
Proof.
  split.
  - rewrite py_str_run, recursion_limit_S.
    erewrite str_at_Locale; eauto using primary_code_str.
  - intros encoding keys s0 built. subst built.
    rewrite new_Locale_spec. cbv zeta.
    rewrite getstored_None. cbn [fst]. rewrite getstored_None. cbn [fst snd].
    split; [reflexivity|].
    rewrite py_str_run. cbn [fst]. rewrite recursion_limit_S.
    apply (str_at_Locale 999 _ _ VNone VNone "None" "None");
      [ | | | reflexivity | reflexivity].
    + unfold class_of. destruct s0; state_simpl. now rewrite lookup_last.
    + erewrite getattr_last;
        [now rewrite Locale_slots_language | destruct s0; reflexivity | reflexivity].
    + erewrite getattr_last;
        [now rewrite Locale_slots_country | destruct s0; reflexivity | reflexivity].
Qed.

Lemma Locale_string_form_witness :
  let s := snd (new_Locale (VStr "en") (VStr "US") (VStr "utf-8") [] module_state) in
  py_str (VRef 468) s = (Ok "en_US", s).
Proof.
  intros s.
  apply (Locale_string_form 468 (VRef 48) (VRef 451) "en" "US" s);
    vm_compute; reflexivity.
Defined.

(** ** Keys that are not text *)

(** C10.  In the registry of any class, a key that is not [None] and is
    not a text whose lower-cased form is registered is never found, and
    no failure of the lookup itself comes out of [getstored]: the bare
    handler turns the missing [lower] method and the missing dictionary
    entry alike into the message of the unknown code.  For a key that
    has a string form, what is raised is [TMDBLocaleError] with a
    message quoting that string form; for a key that has none, it is
    the exception of computing the string form, raised by the handler
    itself.  So every integer, every instance of [Language] or
    [Country] that carries its code (quoted by that code) and every
    instance of [Locale] with such parts (quoted by its string form) is
    reported as an unknown code. *)
Theorem getstored_reports_every_failure (cls : class) (s : state) :
  (forall key : value,
      key <> VNone ->
      (forall k, key = VStr k -> stored_of cls s !! Text.lower k = None) ->
      getstored cls key s
      = (match str_at recursion_limit s key with
         | Ok shown =>
             Raise (TMDBLocaleError
                      ("'" +:+ shown +:+ "' is not a known valid "
                           +:+ class_name cls +:+ " code."))
         | Raise e => Raise e
         end, s))
  /\ (forall z : Z,
        getstored cls (VInt z) s = (Raise (unknown_code cls (Text.of_Z z)), s))
  /\ (forall (entity : addr) (code : string),
        primary_code s (VRef entity) = Some code ->
        getstored cls (VRef entity) s = (Raise (unknown_code cls code), s))
  /\ (forall (loc : addr) (l c : value) (pl pc : string),
        class_of loc s = Ok Locale ->
        getattr loc "language" s = Ok l ->
        getattr loc "country" s = Ok c ->
        primary_code s l = Some pl ->
        primary_code s c = Some pc ->
        getstored cls (VRef loc) s
        = (Raise (unknown_code cls (pl +:+ "_" +:+ pc)), s)).
Proof.
  assert (Hgen : forall key : value,
      key <> VNone ->
      (forall k, key = VStr k -> stored_of cls s !! Text.lower k = None) ->
      getstored cls key s
      = (match str_at recursion_limit s key with
         | Ok shown => Raise (unknown_code cls shown)
         | Raise e => Raise e
         end, s)).
  { intros key Hn Hu.
    destruct key as [| b | z | k | b | a];
      [ congruence
      | apply getstored_other; discriminate
      | apply getstored_other; discriminate
      | rewrite getstored_text, (Hu k eq_refl), str_at_text; reflexivity
      | apply getstored_other; discriminate
      | apply getstored_other; discriminate ]. }
  split; [exact Hgen|]. split; [|split].
  - intros z. rewrite Hgen by discriminate.
    rewrite recursion_limit_S. reflexivity.
  - intros entity code Hcode. rewrite Hgen by discriminate.
    now rewrite (str_at_primary _ _ _ Hcode).
  - intros loc l c pl pc Hloc Hl Hc Hpl Hpc. rewrite Hgen by discriminate.
    rewrite recursion_limit_S.
    erewrite str_at_Locale; eauto using primary_code_str.
Qed.

Lemma getstored_reports_every_failure_witness :
  getstored Language (VRef 48) module_state
  = (Raise (TMDBLocaleError "'en' is not a known valid Language code."), module_state)
  /\ getstored Country (VStr "Atlantis") module_state
     = (Raise (TMDBLocaleError "'Atlantis' is not a known valid Country code."),
        module_state).
Proof.
  destruct (getstored_reports_every_failure Language module_state) as (_ & _ & Hent & _).
  destruct (getstored_reports_every_failure Country module_state) as (Hgen & _).
  split.
  - apply (Hent 48%nat "en"). vm_compute. reflexivity.
  - apply (Hgen (VStr "Atlantis")).
    + discriminate.
    + intros k Hk. injection Hk as <-. vm_compute. reflexivity.
Defined.

(** C10 as the claim states it fails on a key without string form.
    [del] removes the code of the English language, which
    [__delattr__] lets through; that instance, given as a key, is not
    [None] and is no registered text, and what [getstored] raises is
    the [AttributeError] of the slot that the message of the handler
    reads, not [TMDBLocaleError]. *)
Lemma key_without_code_counterexample :
  let deleted := LocaleBase_delattr 48 "ISO639_1" module_state in
  fst (getstored Language (VStr "en") module_state) = Ok (VRef 48)
  /\ fst deleted = Ok tt
  /\ VRef 48 <> VNone
  /\ fst (getstored Language (VRef 48) (snd deleted)) = Raise AttributeError
  /\ (forall msg : string,
        fst (getstored Language (VRef 48) (snd deleted)) <> Raise (TMDBLocaleError msg)).
Proof.
  cbv zeta.
  assert (E : fst (getstored Language (VRef 48)
                     (snd (LocaleBase_delattr 48 "ISO639_1" module_state)))
              = Raise AttributeError) by (vm_compute; reflexivity).
  split; [vm_compute; reflexivity|].
  split; [vm_compute; reflexivity|].
  split; [discriminate|].
  split; [exact E|].
  intros msg. rewrite E. discriminate.
Qed.

(** ** Encoding and decoding *)

Lemma recursion_limit_SS : exists depth, recursion_limit = S (S depth).
Proof. exists 998%nat. apply recursion_limit_S. Qed.

(** C6.  [decode] gives back, unchanged, text and every other value
    without a [decode] method (a number, [None], an instance of
    [Language] or [Country]); on bytes it answers what the codec
    answers, gives the bytes back unchanged when the codec raises
    [UnicodeEncodeError] (or [AttributeError], the exception of the
    missing method), and raises again whatever else the codec raises.
    [encode] is the mirror image on text, with [UnicodeDecodeError]
    swallowed, and on the values without an [encode] method.  Neither
    changes the state.

    A value that is an instance of [Locale] is no text and is still not
    passed along: its [encode] and [decode] are the methods of the
    class, which the code then calls with the encoding of [self] as
    data.  [decode] answers the name of the encoding of [self], and
    [encode] answers that name encoded with the encoding of the value
    (the name itself when the codec raises one of the swallowed
    exceptions). *)
Theorem codec_leniency (h : host) (self : addr) (s : state) :
  (forall dat : value,
      (forall octets, dat <> VBytes octets) ->
      (forall other, dat = VRef other ->
                     class_of other s = Ok Language \/ class_of other s = Ok Country) ->
      Locale_decode h self dat s = (Ok dat, s))
  /\ (forall (octets : list Byte.byte) (name : string),
        getattr self "encoding" s = Ok (VStr name) ->
        Locale_decode h self (VBytes octets) s
        = (match codec_decode h octets name with
           | Ok text => Ok (VStr text)
           | Raise UnicodeEncodeError => Ok (VBytes octets)
           | Raise AttributeError => Ok (VBytes octets)
           | Raise e => Raise e
           end, s))
  /\ (forall dat : value,
        (forall text, dat <> VStr text) ->
        (forall other, dat = VRef other ->
                       class_of other s = Ok Language \/ class_of other s = Ok Country) ->
        Locale_encode h self dat s = (Ok dat, s))
  /\ (forall (text name : string),
        getattr self "encoding" s = Ok (VStr name) ->
        Locale_encode h self (VStr text) s
        = (match codec_encode h text name with
           | Ok octets => Ok (VBytes octets)
           | Raise UnicodeDecodeError => Ok (VStr text)
           | Raise AttributeError => Ok (VStr text)
           | Raise e => Raise e
           end, s))
  /\ (forall (other : addr) (name : string),
        class_of other s = Ok Locale ->
        getattr self "encoding" s = Ok (VStr name) ->
        Locale_decode h self (VRef other) s = (Ok (VStr name), s))
  /\ (forall (other : addr) (name other_name : string),
        class_of other s = Ok Locale ->
        getattr self "encoding" s = Ok (VStr name) ->
        getattr other "encoding" s = Ok (VStr other_name) ->
        Locale_encode h self (VRef other) s
        = (match codec_encode h name other_name with
           | Ok octets => Ok (VBytes octets)
           | Raise UnicodeDecodeError => Ok (VStr name)
           | Raise AttributeError => Ok (VStr name)
           | Raise e => Raise e
           end, s)).
Proof.
  unfold Locale_decode, Locale_encode.
  destruct recursion_limit_SS as [depth ->].
  split; [|split; [|split; [|split; [|split]]]].
  - intros dat Hdat Hcls. cbn [Locale_decode_at]. unfold try_except.
    destruct dat as [| b | z | t | octets | a]; try reflexivity.
    + exfalso. eapply Hdat. reflexivity.
    + unfold bind, reading.
      destruct (Hcls a eq_refl) as [E|E]; rewrite E; reflexivity.
  - intros octets name Henc. cbn [Locale_decode_at].
    unfold try_except, bind, reading, bytes_decode. rewrite Henc.
    destruct (codec_decode h octets name) as [t|[]]; reflexivity.
  - intros dat Hdat Hcls. cbn [Locale_encode_at]. unfold try_except.
    destruct dat as [| b | z | t | octets | a]; try reflexivity.
    + exfalso. eapply Hdat. reflexivity.
    + unfold bind, reading.
      destruct (Hcls a eq_refl) as [E|E]; rewrite E; reflexivity.
  - intros text name Henc. cbn [Locale_encode_at].
    unfold try_except, bind, reading, str_encode. rewrite Henc.
    destruct (codec_encode h text name) as [b|[]]; reflexivity.
  - intros other name Hcls Henc. cbn [Locale_decode_at].
    unfold try_except, bind, reading. rewrite Hcls, Henc. reflexivity.
  - intros other name other_name Hcls Henc Hother. cbn [Locale_encode_at].
    unfold try_except, bind, reading, str_encode. rewrite Hcls, Henc, Hother.
    destruct (codec_encode h name other_name) as [b|[]]; reflexivity.
Qed.

Lemma codec_leniency_witness :
  let s :=
    snd (new_Locale (VStr "fr") (VStr "FR") (VStr "latin-1") []
           (snd (new_Locale (VStr "en") (VStr "US") (VStr "ascii") [] module_state))) in
  Locale_decode sample_host 468 (VBytes [Byte.x66; Byte.xe9]) s
  = (Raise UnicodeDecodeError, s)
  /\ Locale_encode sample_host 468 (VStr ("f" +:+ chr 233)) s
     = (Raise UnicodeEncodeError, s)
  /\ Locale_decode sample_host 468 (VStr "fr") s = (Ok (VStr "fr"), s)
  /\ Locale_encode sample_host 468 (VRef 48) s = (Ok (VRef 48), s)
  /\ Locale_decode sample_host 468 (VRef 469) s = (Ok (VStr "ascii"), s)
  /\ Locale_encode sample_host 468 (VRef 469) s
     = (Ok (VBytes [Byte.x61; Byte.x73; Byte.x63; Byte.x69; Byte.x69]), s).
Proof.
  intros s.
  destruct (codec_leniency sample_host 468 s) as (Hd0 & Hd & He0 & He & Hdl & Hel).
  split; [|split; [|split; [|split; [|split]]]].
  - apply (Hd [Byte.x66; Byte.xe9] "ascii"). vm_compute. reflexivity.
  - apply (He ("f" +:+ chr 233) "ascii"). vm_compute. reflexivity.
  - apply Hd0; discriminate.
  - apply He0; [discriminate|].
    intros other [= <-]. left. vm_compute. reflexivity.
  - apply (Hdl 469%nat "ascii"); vm_compute; reflexivity.
  - apply (Hel 469%nat "ascii" "latin-1"); vm_compute; reflexivity.
Defined.

(** ** Case of the keys *)

Lemma lower_char_idem (c : ascii) : Text.lower_char (Text.lower_char c) = Text.lower_char c.
Proof. destruct c as [[] [] [] [] [] [] [] []]; reflexivity. Qed.

Lemma lower_idem (t : string) : Text.lower (Text.lower t) = Text.lower t.
Proof. induction t as [|c t IH]; simpl; [reflexivity|]. now rewrite lower_char_idem, IH. Qed.

Lemma upper_char_ascii (c : ascii) :
  Text.is_ascii_char c = true ->
  exists d, Text.upper_char c = Some (String d EmptyString)
            /\ Text.lower_char d = Text.lower_char c.
Proof.
  destruct c as [[] [] [] [] [] [] [] []]; intros H; try discriminate H;
    eexists; split; reflexivity.
Qed.

(** On ASCII text, putting to upper case and then to lower case is the
    same as putting to lower case. *)
Lemma upper_ascii (t : string) :
  Text.is_ascii t = true ->
  exists u, Text.upper t = Some u /\ Text.lower u = Text.lower t.
Proof.
  induction t as [|c t IH]; simpl; intros H.
  - exists EmptyString. split; reflexivity.
  - apply andb_true_iff in H as [Hc Ht].
    destruct (upper_char_ascii c Hc) as (d & Hd & Hl).
    destruct (IH Ht) as (u & Hu & Hlu).
    exists (String d u). rewrite Hd, Hu. split; [reflexivity|].
    simpl. now rewrite Hl, Hlu.
Qed.



(** C5, as the code has it.  A key made of ASCII characters only, whose
    lower-cased form is registered for an entity, is found, and so are
    its upper-cased and its lower-cased form, all three lookups
    answering that same instance.  Registration stores an instance under
    the lower-cased form of each of its keys: after
    [Language(iso1, iso2, ename)] both [iso1] and [iso2] lead to the new
    instance.  Every key of the seed data is made of ASCII characters. *)
Theorem lookup_ignores_ascii_case (cls : class) (c : string) (entity : addr) (s : state)
    (Hascii : Text.is_ascii c = true)
    (Hreg : stored_of cls s !! Text.lower c = Some entity) :
  (exists u, Text.upper c = Some u
             /\ getstored cls (VStr c) s = (Ok (VRef entity), s)
             /\ getstored cls (VStr u) s = (Ok (VRef entity), s)
             /\ getstored cls (VStr (Text.lower c)) s = (Ok (VRef entity), s))
  /\ (forall (iso1 iso2 ename : string) (s0 : state),
        let built := new_Language iso1 iso2 ename s0 in
        fst built = Ok (List.length (heap s0))
        /\ Language_stored (snd built) !! Text.lower iso1 = Some (List.length (heap s0))
        /\ Language_stored (snd built) !! Text.lower iso2 = Some (List.length (heap s0)))
  /\ forallb Text.is_ascii seed_keys = true.
Proof.
  split; [|split].
  - destruct (upper_ascii c Hascii) as (u & Hu & Hl).
    exists u. rewrite !getstored_text, lower_idem, Hl, Hreg. auto.
  - intros iso1 iso2 ename s0 built. subst built. rewrite new_Language_spec.
    cbn [fst snd Language_stored]. split; [reflexivity|].
    split; [|apply lookup_insert_eq].
    destruct (decide (Text.lower iso2 = Text.lower iso1)) as [E|E].
    + rewrite E. apply lookup_insert_eq.
    + rewrite lookup_insert_ne by exact E. apply lookup_insert_eq.
  - vm_compute. reflexivity.
Qed.

Lemma lookup_ignores_ascii_case_witness :
  exists u, Text.upper "Fr" = Some u
            /\ getstored Language (VStr "Fr") module_state = (Ok (VRef 56), module_state)
            /\ getstored Language (VStr u) module_state = (Ok (VRef 56), module_state)
            /\ getstored Language (VStr (Text.lower "Fr")) module_state
               = (Ok (VRef 56), module_state).
Proof.
  apply (lookup_ignores_ascii_case Language "Fr" 56 module_state).
  - reflexivity.
  - vm_compute. reflexivity.
Defined.

(** C5 as the claim states it fails on a key that is not ASCII.  The
    text of the one letter U+00DF is registered for a new language; its
    upper-cased form is SS, which lower-cases to ss, the code of another
    language of the seed data. *)
Lemma sharp_s_counterexample :
  let c := chr 223 in
  let built := new_Language c "zzz" "Sharp s" module_state in
  fst built = Ok 468%nat
  /\ Language_stored (snd built) !! Text.lower c = Some 468%nat
  /\ Text.upper c = Some "SS"
  /\ fst (getstored Language (VStr c) (snd built)) = Ok (VRef 468)
  /\ fst (getstored Language (VStr "SS") (snd built)) = Ok (VRef 184)
  /\ fst (getstored Language (VStr c) (snd built))
     <> fst (getstored Language (VStr "SS") (snd built)).
Proof.
  cbv zeta.
  split; [vm_compute; reflexivity|].
  split; [vm_compute; reflexivity|].
  split; [vm_compute; reflexivity|].
  split; [vm_compute; reflexivity|].
  split; [vm_compute; reflexivity|].
  vm_compute. discriminate.
Qed.

(** ** Setting the current locale *)

Lemma heap_extends_same (s s' : state) : heap s' = heap s -> heap_extends s s'.
Proof. intros E a o H. now rewrite E. Qed.


Lemma split_two (t : string) :
  Text.contains "_" t = true ->
  exists p0 p1 rest, Text.split "_" t = p0 :: p1 :: rest.
Proof.
  induction t as [|c t IH]; cbn [Text.contains Text.split]; [discriminate|].
  rewrite (Ascii.eqb_sym "_" c).
  destruct (Ascii.eqb c "_").
  - intros _. destruct t as [|d t]; cbn [Text.split]; [eauto|].
    destruct (Ascii.eqb d "_"); [eauto|].
    destruct (Text.split "_" t); eauto.
  - intros H. destruct (IH H) as (p0 & p1 & rest & E). rewrite E. eauto.
Qed.

Lemma override_index (argument : value) (dat : list string) (i : nat) (base : string)
    (s : state) :
  dat !! i = Some base ->
  (if is_None argument then index dat i else ret argument) s
  = (Ok (override argument base), s).
Proof.
  intros H. unfold override, index. rewrite H. destruct (is_None argument); reflexivity.
Qed.

(** [set_locale] once the pair to fall back on is known. *)
Lemma set_locale_with_base (h : host) (language country ft : value)
    (dat : list string) (b0 b1 : string) (s : state) :
  language = VNone \/ country = VNone ->
  fallback_pair (fst (getdefaultlocale h)) (set_fallthrough ft s)
  = (Ok dat, set_fallthrough ft s) ->
  dat !! 0%nat = Some b0 ->
  dat !! 1%nat = Some b1 ->
  set_locale h language country ft s
  = install (override language b0) (override country b1)
            (of_option (snd (getdefaultlocale h))) (set_fallthrough ft s).
Proof.
  intros Hm Hdat H0 H1. unfold set_locale, install.
  destruct (getdefaultlocale h) as [sysloc sysenc]. cbn [fst snd] in *.
  unfold bind at 1. unfold modify at 1.
  assert (Hc : negb (truthy language) || negb (truthy country) = true).
  { destruct Hm; subst; simpl; auto using orb_true_r. }
  rewrite Hc. unfold bind at 1. unfold bind at 1. rewrite Hdat.
  unfold bind at 1. rewrite (override_index _ _ _ _ _ H0).
  unfold bind at 1. rewrite (override_index _ _ _ _ _ H1).
  reflexivity.
Qed.

(** C7.  When [set_locale] is called with the language or the country
    left out, the locale it installs is built from a base pair in which
    every argument that was supplied replaces its half: the base is the
    string forms of the language and the country of the current locale
    when there is one; otherwise it is en and US when the host has no
    locale string or one without an underscore, and else the first two
    pieces of the host string split at its underscores.  On the state
    right after import and a host without locale string, [set_locale()]
    succeeds and installs a locale whose language has the code en and
    whose country has the code US. *)
Theorem set_locale_resolution (h : host) (language country ft : value) (s : state)
    (Hmissing : language = VNone \/ country = VNone) :
  let sysloc := fst (getdefaultlocale h) in
  let sysenc := of_option (snd (getdefaultlocale h)) in
  let s0 := set_fallthrough ft s in
  (forall (cur : addr) (l c : value) (ls cs : string),
      syslocale s = VRef cur ->
      getattr cur "language" s = Ok l ->
      str_at recursion_limit s l = Ok ls ->
      getattr cur "country" s = Ok c ->
      str_at recursion_limit s c = Ok cs ->
      set_locale h language country ft s
      = install (override language ls) (override country cs) sysenc s0)
  /\ (syslocale s = VNone ->
      sysloc = None \/ (exists t, sysloc = Some t /\ Text.contains "_" t = false) ->
      set_locale h language country ft s
      = install (override language "en") (override country "US") sysenc s0)
  /\ (forall t : string,
        syslocale s = VNone ->
        sysloc = Some t ->
        Text.contains "_" t = true ->
        exists p0 p1 rest,
          Text.split "_" t = p0 :: p1 :: rest
          /\ set_locale h language country ft s
             = install (override language p0) (override country p1) sysenc s0)
  /\ (sysloc = None ->
      let after := set_locale h VNone VNone (VBool false) module_state in
      fst after = Ok tt
      /\ exists loc l c,
           syslocale (snd after) = VRef loc
           /\ getattr loc "language" (snd after) = Ok (VRef l)
           /\ primary_code (snd after) (VRef l) = Some "en"
           /\ getattr loc "country" (snd after) = Ok (VRef c)
           /\ primary_code (snd after) (VRef c) = Some "US").
Proof.
  intros sysloc sysenc s0. subst sysloc sysenc s0.
  split; [|split; [|split]].
  - intros cur l c ls cs Hcur Hl Hls Hc Hcs.
    apply (set_locale_with_base h language country ft [ls; cs] ls cs s Hmissing);
      [|reflexivity|reflexivity].
    assert (Hx : heap_extends s (set_fallthrough ft s))
      by (apply heap_extends_same; reflexivity).
    unfold fallback_pair, bind, reading. cbn [syslocale set_fallthrough].
    rewrite Hcur. cbn [is_None negb attr]. unfold reading.
    rewrite (getattr_extends _ _ _ _ _ Hx Hl), py_str_run.
    rewrite (str_at_extends _ _ _ _ _ Hx Hls).
    rewrite (getattr_extends _ _ _ _ _ Hx Hc), py_str_run.
    rewrite (str_at_extends _ _ _ _ _ Hx Hcs). reflexivity.
  - intros Hcur Hhost.
    apply (set_locale_with_base h language country ft ["en"; "US"] "en" "US" s Hmissing);
      [|reflexivity|reflexivity].
    unfold fallback_pair, bind, reading. cbn [syslocale set_fallthrough].
    rewrite Hcur. cbn [is_None negb].
    destruct Hhost as [->|(t & -> & Ht)]; [reflexivity|]. now rewrite Ht.
  - intros t Hcur Hhost Ht.
    destruct (split_two t Ht) as (p0 & p1 & rest & E).
    exists p0, p1, rest. split; [exact E|].
    apply (set_locale_with_base h language country ft (p0 :: p1 :: rest) p0 p1 s Hmissing);
      [|reflexivity|reflexivity].
    unfold fallback_pair, bind, reading. cbn [syslocale set_fallthrough].
    rewrite Hcur, Hhost. cbn [is_None negb]. rewrite Ht, E. reflexivity.
  - destruct h as [[hostloc hostenc] enc dec]. cbn [fst getdefaultlocale].
    intros ->. cbv zeta. split; [vm_compute; reflexivity|].
    exists 468%nat, 48%nat, 451%nat.
    split; [vm_compute; reflexivity|].
    split; [vm_compute; reflexivity|].
    split; [vm_compute; reflexivity|].
    split; vm_compute; reflexivity.
Qed.

Lemma set_locale_resolution_witness :
  set_locale sample_host VNone VNone (VBool false) module_state
  = install (VStr "en") (VStr "US") VNone (set_fallthrough (VBool false) module_state).
Proof.
  apply (set_locale_resolution sample_host VNone VNone (VBool false) module_state).
  - left. reflexivity.
  - vm_compute. reflexivity.
  - left. reflexivity.
Defined.

(** ** Reading the current locale *)

Lemma registry_okb_ok (s : state) : registry_okb s = true -> registry_ok s.
Proof.
  unfold registry_okb. rewrite andb_true_iff, !forallb_forall.
  intros [HL HC] cls k a Hcls Hk.
  assert (H : has_str s (k, a) = true).
  { destruct cls; [apply HL | apply HC | congruence];
      apply list_elem_of_In, elem_of_map_to_list; exact Hk. }
  unfold has_str in H. cbn [snd] in H.
  destruct (str_at recursion_limit s (VRef a)) as [code|]; [eauto | discriminate].
Qed.

Lemma getstored_Ok_inv (cls : class) (key v : value) (s : state) :
  key <> VNone ->
  fst (getstored cls key s) = Ok v ->
  exists k a, key = VStr k /\ stored_of cls s !! Text.lower k = Some a /\ v = VRef a.
Proof.
  intros Hn H. destruct key as [| b | z | k | b | a]; [congruence | | | | |];
    try (rewrite getstored_other in H by discriminate; cbn [fst] in H;
         destruct (str_at recursion_limit s _); discriminate).
  rewrite getstored_text in H. cbn [fst] in H.
  destruct (stored_of cls s !! Text.lower k) as [a|] eqn:E; [|discriminate].
  exists k, a. repeat split; congruence.
Qed.

Lemma get_locale_language_only (h : host) (s : state) (loc c : addr)
    (enc : value) (ccode t : string) :
  syslocale s = VRef loc ->
  getattr loc "country" s = Ok (VRef c) ->
  getattr loc "encoding" s = Ok enc ->
  str_at recursion_limit s (VRef c) = Ok ccode ->
  fst (get_locale h (VStr t) unset s)
  = Raise (match Language_stored s !! Text.lower t with
           | Some _ => unknown_code Country ccode
           | None => unknown_code Language t
           end).
Proof.
  intros Hcur Hc Henc Hcode.
  unfold get_locale. unfold bind at 1. unfold reading at 1. rewrite Hcur.
  cbn [is_None]. unfold bind at 1. unfold ret at 1.
  unfold bind at 1. unfold bind at 1.
  change (py_eq (VStr t) unset) with (@ret bool false). unfold ret at 1. unfold ret at 1.
  unfold bind at 1. unfold bind at 1. unfold bind at 1.
  change (py_eq (VStr t) unset) with (@ret bool false). unfold ret at 1.
  unfold bind at 1.
  change (py_eq unset unset) with (@ret bool true). unfold ret at 1.
  unfold bind at 1. cbn [attr]. unfold reading at 1. rewrite Hc. unfold ret at 1.
  unfold bind at 1. unfold reading at 1. rewrite Henc.
  unfold bind at 1. cbn [fst snd].
  rewrite new_Locale_spec. cbv zeta.
  rewrite getstored_text. cbn [fst]. state_simpl.
  destruct (Language_stored s !! Text.lower t) as [a|]; [|destruct s; reflexivity].
  rewrite getstored_other by discriminate. cbn [fst].
  erewrite str_at_extends; [destruct s; reflexivity | | exact Hcode].
  eapply heap_extends_alloc. destruct s; reflexivity.
Qed.

Lemma get_locale_country_only (h : host) (s : state) (loc l : addr)
    (enc : value) (lcode t : string) :
  syslocale s = VRef loc ->
  getattr loc "language" s = Ok (VRef l) ->
  getattr loc "encoding" s = Ok enc ->
  str_at recursion_limit s (VRef l) = Ok lcode ->
  fst (get_locale h unset (VStr t) s) = Raise (unknown_code Language lcode).
Proof.
  intros Hcur Hl Henc Hcode.
  unfold get_locale. unfold bind at 1. unfold reading at 1. rewrite Hcur.
  cbn [is_None]. unfold bind at 1. unfold ret at 1.
  unfold bind at 1. unfold bind at 1.
  change (py_eq unset (VStr t)) with (@ret bool false). unfold ret at 1. unfold ret at 1.
  unfold bind at 1. unfold bind at 1. unfold bind at 1.
  change (py_eq unset unset) with (@ret bool true). unfold ret at 1.
  unfold bind at 1. cbn [attr]. unfold reading at 1. rewrite Hl. unfold ret at 1.
  unfold bind at 1. unfold reading at 1. rewrite Henc. cbn [fst snd].
  rewrite new_Locale_spec. cbv zeta.
  rewrite getstored_other by discriminate. cbn [fst].
  erewrite str_at_extends; [destruct s; reflexivity | | exact Hcode].
  eapply heap_extends_alloc. destruct s; reflexivity.
Qed.

Lemma fallback_pair_state (sysloc : option string) (s : state) :
  snd (fallback_pair sysloc s) = s.
Proof.
  cbv beta iota delta [fallback_pair bind reading py_str attr ret raise].
  destruct (syslocale s) as [| b | z | t | b | a]; cbv beta iota delta [is_None negb];
    try reflexivity.
  - destruct sysloc as [t|]; [|reflexivity].
    destruct (Text.contains "_" t); reflexivity.
  - destruct (getattr a "language" s) as [l|]; [|reflexivity].
    destruct (str_at recursion_limit s l); [|reflexivity].
    destruct (getattr a "country" s) as [c|]; [|reflexivity].
    destruct (str_at recursion_limit s c); reflexivity.
Qed.

Lemma choose_argument (argument : value) (dat : list string) (i : nat) (s : state) :
  (exists e, (if is_None argument then index dat i else ret argument) s = (Raise e, s))
  \/ (exists v, (if is_None argument then index dat i else ret argument) s = (Ok v, s)
                /\ v <> VNone).
Proof.
  unfold index, ret, raise. destruct argument; cbn [is_None];
    try (right; eexists; split; [reflexivity | discriminate]).
  destruct (dat !! i); [right | left]; eauto.
Qed.

(** [set_locale] either raises before it builds the locale, or installs
    a locale built from two values that are not [None]. *)
Lemma set_locale_shape (h : host) (language country ft : value) (s : state) :
  (exists e, set_locale h language country ft s = (Raise e, set_fallthrough ft s))
  \/ (exists l c,
        l <> VNone /\ c <> VNone
        /\ set_locale h language country ft s
           = install l c (of_option (snd (getdefaultlocale h))) (set_fallthrough ft s)).
Proof.
  unfold set_locale, install.
  destruct (getdefaultlocale h) as [sysloc sysenc]. cbn [snd].
  unfold bind, modify.
  destruct (negb (truthy language) || negb (truthy country)) eqn:Hc.
  - pose proof (fallback_pair_state sysloc (set_fallthrough ft s)) as Hst.
    destruct (fallback_pair sysloc (set_fallthrough ft s)) as [[dat|e] s0];
      cbn [snd] in Hst; subst s0; [|left; eauto].
    destruct (choose_argument language dat 0 (set_fallthrough ft s))
      as [(e & ->)|(l & -> & Hl)]; [left; eauto|].
    destruct (choose_argument country dat 1 (set_fallthrough ft s))
      as [(e & ->)|(c & -> & Hcn)]; [left; eauto|].
    right. exists l, c. repeat split; assumption.
  - right. exists language, country.
    apply orb_false_iff in Hc as [Hl Hcn].
    apply negb_false_iff in Hl, Hcn.
    repeat split; try reflexivity; intros ->; discriminate.
Qed.

Lemma set_locale_installs (h : host) (language country ft : value) (s s' : state) :
  registry_ok s ->
  set_locale h language country ft s = (Ok tt, s') ->
  exists loc l c enc lcode ccode,
    syslocale s' = VRef loc
    /\ getattr loc "language" s' = Ok (VRef l)
    /\ getattr loc "country" s' = Ok (VRef c)
    /\ getattr loc "encoding" s' = Ok enc
    /\ str_at recursion_limit s' (VRef l) = Ok lcode
    /\ str_at recursion_limit s' (VRef c) = Ok ccode.
Proof.
  intros Hreg Hset.
  destruct (set_locale_shape h language country ft s) as [(e & E)|(lv & cv & Hl & Hc & E)];
    rewrite E in Hset; [discriminate|]. clear E.
  unfold install in Hset. unfold bind at 1 in Hset.
  rewrite new_Locale_spec in Hset. cbv zeta in Hset.
  destruct (fst (getstored Language lv _)) as [l|e] eqn:El; [|discriminate].
  destruct (fst (getstored Country cv _)) as [c|e] eqn:Ec; [|discriminate].
  apply getstored_Ok_inv in El as (kl & al & -> & Hkl & ->); [|exact Hl].
  apply getstored_Ok_inv in Ec as (kc & ac & -> & Hkc & ->); [|exact Hc].
  unfold modify in Hset. injection Hset as <-.
  destruct (Hreg Language (Text.lower kl) al) as [lcode Hlcode];
    [discriminate | destruct s; exact Hkl |].
  destruct (Hreg Country (Text.lower kc) ac) as [ccode Hccode];
    [discriminate | destruct s; exact Hkc |].
  exists (List.length (heap s)), al, ac,
    (encoding_or_default (of_option (snd (getdefaultlocale h)))), lcode, ccode.
  assert (Hx : forall s2 o, heap s2 = (heap s ++ [o])%list -> heap_extends s s2)
    by (intros s2 o; apply heap_extends_alloc).
  split; [destruct s; reflexivity|].
  split; [erewrite getattr_last;
            [now rewrite Locale_slots_language | destruct s; reflexivity | reflexivity]|].
  split; [erewrite getattr_last;
            [now rewrite Locale_slots_country | destruct s; reflexivity | reflexivity]|].
  split; [erewrite getattr_last;
            [now rewrite Locale_slots_encoding | destruct s; reflexivity | reflexivity]|].
  split; (eapply str_at_extends; [eapply Hx; destruct s; reflexivity | eassumption]).
Qed.

Lemma run_Ok {A} (m : M A) (s : state) (a : A) :
  fst (m s) = Ok a -> m s = (Ok a, snd (m s)).
Proof. destruct (m s) as [r s1]. cbn [fst snd]. now intros ->. Qed.

(** C1, as the code has it.  The claim says that, once [set_locale] has
    installed a current locale, [get_locale] called with one argument
    returns a new locale made of that argument and of the other field of
    the current locale.  The code raises instead: the field it takes
    from the current locale is the [Language] or [Country] instance
    itself, which the constructor of [Locale] looks up as if it were a
    code.  After any successful [set_locale], from a state whose
    registered entities have string forms, [get_locale(t)] and
    [get_locale(country=t)] both raise [TMDBLocaleError] for every text
    [t]; and on the state right after import, on any host,
    [get_locale("fr")] after [set_locale("en", "US")] raises the error
    that says US is not a known country code. *)
Theorem get_locale_with_one_argument_raises
    (h : host) (language country ft : value) (t : string) (s s' : state)
    (Hreg : registry_ok s)
    (Hset : set_locale h language country ft s = (Ok tt, s')) :
  (exists msg, fst (get_locale h (VStr t) unset s') = Raise (TMDBLocaleError msg))
  /\ (exists msg, fst (get_locale h unset (VStr t) s') = Raise (TMDBLocaleError msg))
  /\ (forall h' : host,
        fst (get_locale h' (VStr "fr") unset
               (snd (set_locale h' (VStr "en") (VStr "US") (VBool false) module_state)))
        = Raise (TMDBLocaleError "'US' is not a known valid Country code.")).
Proof.
  destruct (set_locale_installs _ _ _ _ _ _ Hreg Hset)
    as (loc & l & c & enc & lcode & ccode & Hcur & Hl & Hc & Henc & Hlcode & Hccode).
  split; [|split].
  - rewrite (get_locale_language_only h s' loc c enc ccode t Hcur Hc Henc Hccode).
    destruct (Language_stored s' !! Text.lower t); eexists; reflexivity.
  - rewrite (get_locale_country_only h s' loc l enc lcode t Hcur Hl Henc Hlcode).
    eexists; reflexivity.
  - intros [[hostloc hostenc] enc' dec']. vm_compute. reflexivity.
Qed.

Lemma get_locale_with_one_argument_raises_witness :
  exists msg,
    fst (get_locale sample_host (VStr "fr") unset
           (snd (set_locale sample_host (VStr "en") (VStr "US") (VBool false) module_state)))
    = Raise (TMDBLocaleError msg).
Proof.
  refine (proj1 (get_locale_with_one_argument_raises sample_host
                   (VStr "en") (VStr "US") (VBool false) "fr" module_state _ _ _)).
  - apply registry_okb_ok. vm_compute. reflexivity.
  - apply run_Ok. vm_compute. reflexivity.
Defined.

(** * Further properties *)

(** ** Computations that only add objects *)

Lemma frame_refl (s : state) : frame s s.
Proof. split; try reflexivity. apply heap_extends_refl. Qed.











Lemma framed_getstored (cls : class) (key : value) : framed (getstored cls key).
Proof. intros s. rewrite getstored_state. apply frame_refl. Qed.




(** ** What [set_locale] does to the state *)





(** ** The invariant of the module *)






















(** ** Import *)











(** ** What [get_locale] and [set_locale] leave untouched *)




(** ** [set_locale] with both codes given *)









(** ** [set_locale] on top of a current locale *)





(** ** Building a locale *)






(** ** Registering an entity *)


(** ** Laws of the order and of equality *)









(** ** Encoding twice, and back *)






